(** * lighteval: a shallow embedding of the model evaluation library

    The development follows the layout of the repository:
    - [Py]: the fragment of Python the sources rely on (exceptions, list
      slicing, [str.replace], [str.strip], one regular expression);
    - [FakeModel]: [tests/utils.py];
    - [JudgeLM]: [src/lighteval/metrics/llm_as_judge.py];
    - [Hellaswag]: [src/lighteval/tasks/templates/hellaswag.py];
    - [Multilingual]: [src/lighteval/tasks/multilingual/tasks.py];
    - [Pipeline]: the constructor guard of [src/lighteval/pipeline.py]. *)

From Stdlib Require Import String Ascii List ZArith NArith Lia Bool.
Import ListNotations.

Set Implicit Arguments.

(* ================================================================== *)
(** * The Python fragment *)
(* ================================================================== *)

Module Py.

(** Exceptions that the modelled code raises or lets through.  All of them
    are of Python's class [Exception], so an [except Exception] clause
    catches every one; what lies outside that class ([KeyboardInterrupt],
    [SystemExit]) is not modelled. *)
Inductive exn : Type :=
  | ValueError (msg : string)
  | KeyError
  | TypeError (msg : string)
  | IndexError (msg : string)
  | ImportError (msg : string)
  | AttributeError (msg : string)
  | Exception (msg : string).

(** A call either returns a value or raises. *)
Inductive result (A : Type) : Type :=
  | Ok (a : A)
  | Raise (e : exn).

Arguments Ok {A} a.
Arguments Raise {A} e.

Definition bind {A B} (r : result A) (k : A -> result B) : result B :=
  match r with
  | Ok a => k a
  | Raise e => Raise e
  end.

Definition raises {A} (r : result A) : Prop := exists e, r = Raise e.

Definition returns {A} (r : result A) : Prop := exists a, r = Ok a.

(** ** List slicing, [l[start:stop]] with unit step

    A bound that is absent defaults to the matching end of the list; a
    negative bound counts from the end; every bound is clamped into
    [0 .. len(l)].  Slicing never raises. *)

Definition clamp_index (len i : Z) : Z :=
  if (i <? 0)%Z then Z.max 0 (i + len) else Z.min i len.

Definition slice {A} (l : list A) (start stop : option Z) : list A :=
  let len := Z.of_nat (length l) in
  let lo := match start with None => 0%Z | Some i => clamp_index len i end in
  let hi := match stop with None => len | Some j => clamp_index len j end in
  firstn (Z.to_nat (hi - lo)) (skipn (Z.to_nat lo) l).

(** [len(l)] as a Python integer. *)
Definition len {A} (l : list A) : Z := Z.of_nat (length l).

Lemma slice_upto {A} (l : list A) (n : nat) :
  slice l None (Some (Z.of_nat n)) = firstn n l.
Proof.
  unfold slice, clamp_index.
  destruct (Z.ltb_spec (Z.of_nat n) 0) as [Hneg | _]; [lia |].
  rewrite Z.sub_0_r. cbn [Z.to_nat skipn].
  destruct (Nat.le_gt_cases n (length l)) as [Hle | Hgt].
  - rewrite Z.min_l by lia. now rewrite Nat2Z.id.
  - rewrite Z.min_r by lia. rewrite Nat2Z.id.
    rewrite !firstn_all2; trivial; lia.
Qed.

Lemma slice_from {A} (l : list A) (n : nat) :
  slice l (Some (Z.of_nat n)) None = skipn n l.
Proof.
  unfold slice, clamp_index.
  destruct (Z.ltb_spec (Z.of_nat n) 0) as [Hneg | _]; [lia |].
  destruct (Nat.le_gt_cases n (length l)) as [Hle | Hgt].
  - rewrite Z.min_l by lia. rewrite Nat2Z.id.
    apply firstn_all2. rewrite length_skipn. lia.
  - rewrite Z.min_r by lia. rewrite Nat2Z.id.
    rewrite !skipn_all2 by lia. now destruct (Z.to_nat _).
Qed.

(** ** Text

    A [str] is a sequence of Unicode code points. *)

Definition char : Type := N.

Definition str : Type := list char.

(** The code points of an ASCII literal. *)
Definition lit (s : string) : str := map N_of_ascii (list_ascii_of_string s).

Definition space : char := 32%N.
Definition newline : char := 10%N.
Definition lbracket : char := 91%N.
Definition rbracket : char := 93%N.
Definition backslash : char := 92%N.

(** [s.startswith(p)] *)
Fixpoint starts_with (p s : str) : bool :=
  match p, s with
  | [], _ => true
  | _ :: _, [] => false
  | a :: p', b :: s' => (a =? b)%N && starts_with p' s'
  end.

(** [p in s] *)
Fixpoint contains (p s : str) : bool :=
  starts_with p s ||
  match s with
  | [] => false
  | _ :: s' => contains p s'
  end.

(** [s.replace(old, new)] for a non-empty [old]: the text is read from the
    left; where [old] starts, [new] is written and the rest of that
    occurrence ([skip] characters) is passed over, so occurrences do not
    overlap and the text written is not read again. *)
Fixpoint replace_from (old new : str) (skip : nat) (s : str) : str :=
  match s with
  | [] => []
  | c :: r =>
      match skip with
      | S k => replace_from old new k r
      | O =>
          if starts_with old (c :: r)
          then new ++ replace_from old new (length old - 1) r
          else c :: replace_from old new 0 r
      end
  end.

(** [s.replace(old, new)]; an empty [old] matches before every character
    and at the end. *)
Definition replace (s old new : str) : str :=
  match old with
  | [] => new ++ flat_map (fun c => c :: new) s
  | _ :: _ => replace_from old new 0 s
  end.

(** [str.isspace] on one code point: the characters [strip()] removes. *)
Definition isspace (c : char) : bool :=
  ((9 <=? c) && (c <=? 13) || (28 <=? c) && (c <=? 32)
   || (c =? 133) || (c =? 160) || (c =? 5760)
   || (8192 <=? c) && (c <=? 8202)
   || (c =? 8232) || (c =? 8233) || (c =? 8239) || (c =? 8287) || (c =? 12288))%N.

Fixpoint lstrip (s : str) : str :=
  match s with
  | [] => []
  | c :: r => if isspace c then lstrip r else s
  end.

Definition rstrip (s : str) : str := rev (lstrip (rev s)).

Definition strip (s : str) : str := rstrip (lstrip s).

(** ** [re.sub("\[.*?\]", "", s)]

    The pattern matches an opening bracket, as few characters as possible
    other than a newline, and a closing bracket.  [closes r] tells whether
    the text [r] after an opening bracket lets the pattern match: a closing
    bracket comes before the line ends.  The text is read from the left;
    [inside] is set while a match is being passed over. *)
Fixpoint closes (r : str) : bool :=
  match r with
  | [] => false
  | c :: r' =>
      if (c =? rbracket)%N then true
      else if (c =? newline)%N then false
      else closes r'
  end.

Fixpoint sub_brackets_from (inside : bool) (s : str) : str :=
  match s with
  | [] => []
  | c :: r =>
      if inside then
        if (c =? rbracket)%N then sub_brackets_from false r
        else sub_brackets_from true r
      else if (c =? lbracket)%N && closes r then sub_brackets_from true r
      else c :: sub_brackets_from false r
  end.

Definition sub_brackets (s : str) : str := sub_brackets_from false s.

End Py.

Notation "x <- c1 ;; c2" := (Py.bind c1 (fun x => c2))
  (at level 61, c1 at next level, right associativity).

(* ================================================================== *)
(** * tests/utils.py: the scripted model *)
(* ================================================================== *)

Module FakeModel.

Section Model.

(** The response and request classes live in [lighteval.models] and
  [lighteval.tasks.requests]; the fake model only moves them around. *)
Variables GenerateReturn LoglikelihoodReturn LoglikelihoodSingleTokenReturn : Type.
Variables GreedyUntilRequest LoglikelihoodRequest : Type.
Variables LoglikelihoodRollingRequest LoglikelihoodSingleTokenRequest : Type.
Variable Tokenizer : Type.
Variable from_pretrained : string -> Tokenizer.

(** The instance attributes.  [greedy_until_resp] is not set by
  [__init__]: it comes into being on the first [greedy_until]. *)
Record t : Type := mk {
  _tokenizer : option Tokenizer;
  greedy_until_responses : list GenerateReturn;
  loglikelihood_responses : list LoglikelihoodReturn;
  loglikelihood_rolling_responses : list LoglikelihoodReturn;
  loglikelihood_single_token_responses : list LoglikelihoodSingleTokenReturn;
  greedy_until_resp : option (list GenerateReturn)
  }.

Definition __init__
    (greedy_until_responses : list GenerateReturn)
    (loglikelihood_responses : list LoglikelihoodReturn)
    (loglikelihood_rolling_responses : list LoglikelihoodReturn)
    (loglikelihood_single_token_responses : list LoglikelihoodSingleTokenReturn) : t :=
  {| _tokenizer := None;
     greedy_until_responses := greedy_until_responses;
     loglikelihood_responses := loglikelihood_responses;
     loglikelihood_rolling_responses := loglikelihood_rolling_responses;
     loglikelihood_single_token_responses := loglikelihood_single_token_responses;
     greedy_until_resp := None |}.

(** The [tokenizer] property: loaded on first use, kept on the instance. *)
Definition tokenizer (self : t) : Tokenizer * t :=
  match _tokenizer self with
  | Some tok => (tok, self)
  | None =>
      let tok := from_pretrained "gpt2" in
      (tok,
       {| _tokenizer := Some tok;
          greedy_until_responses := greedy_until_responses self;
          loglikelihood_responses := loglikelihood_responses self;
          loglikelihood_rolling_responses := loglikelihood_rolling_responses self;
          loglikelihood_single_token_responses := loglikelihood_single_token_responses self;
          greedy_until_resp := greedy_until_resp self |})
  end.

Definition add_special_tokens (self : t) : bool := false.

Definition max_length (self : t) : Z := 2048.

(** Each operation evaluates both slices of the right-hand tuple, then
  binds [ret_resp] and stores the second slice on [self]. *)

Definition greedy_until (self : t) (requests : list GreedyUntilRequest)
    (override_bs : option Z) : Py.result (list GenerateReturn * t) :=
  let ret_resp := Py.slice (greedy_until_responses self) None (Some (Py.len requests)) in
  let rest := Py.slice (greedy_until_responses self) (Some (Py.len requests)) None in
  Py.Ok (ret_resp,
         {| _tokenizer := _tokenizer self;
            greedy_until_responses := greedy_until_responses self;
            loglikelihood_responses := loglikelihood_responses self;
            loglikelihood_rolling_responses := loglikelihood_rolling_responses self;
            loglikelihood_single_token_responses := loglikelihood_single_token_responses self;
            greedy_until_resp := Some rest |}).

Definition loglikelihood (self : t) (requests : list LoglikelihoodRequest)
    (override_bs : option Z) : Py.result (list LoglikelihoodReturn * t) :=
  let ret_resp := Py.slice (loglikelihood_responses self) None (Some (Py.len requests)) in
  let rest := Py.slice (loglikelihood_responses self) (Some (Py.len requests)) None in
  Py.Ok (ret_resp,
         {| _tokenizer := _tokenizer self;
            greedy_until_responses := greedy_until_responses self;
            loglikelihood_responses := rest;
            loglikelihood_rolling_responses := loglikelihood_rolling_responses self;
            loglikelihood_single_token_responses := loglikelihood_single_token_responses self;
            greedy_until_resp := greedy_until_resp self |}).

Definition loglikelihood_rolling (self : t) (requests : list LoglikelihoodRollingRequest)
    (override_bs : option Z) : Py.result (list LoglikelihoodReturn * t) :=
  let ret_resp := Py.slice (loglikelihood_rolling_responses self) None (Some (Py.len requests)) in
  let rest := Py.slice (loglikelihood_rolling_responses self) (Some (Py.len requests)) None in
  Py.Ok (ret_resp,
         {| _tokenizer := _tokenizer self;
            greedy_until_responses := greedy_until_responses self;
            loglikelihood_responses := loglikelihood_responses self;
            loglikelihood_rolling_responses := rest;
            loglikelihood_single_token_responses := loglikelihood_single_token_responses self;
            greedy_until_resp := greedy_until_resp self |}).

Definition loglikelihood_single_token (self : t)
    (requests : list LoglikelihoodSingleTokenRequest)
    (override_bs : option Z) : Py.result (list LoglikelihoodSingleTokenReturn * t) :=
  let ret_resp :=
    Py.slice (loglikelihood_single_token_responses self) None (Some (Py.len requests)) in
  let rest :=
    Py.slice (loglikelihood_single_token_responses self) (Some (Py.len requests)) None in
  Py.Ok (ret_resp,
         {| _tokenizer := _tokenizer self;
            greedy_until_responses := greedy_until_responses self;
            loglikelihood_responses := loglikelihood_responses self;
            loglikelihood_rolling_responses := loglikelihood_rolling_responses self;
            loglikelihood_single_token_responses := rest;
            greedy_until_resp := greedy_until_resp self |}).

(** ** The four backend operations, seen uniformly *)

Inductive operation : Type :=
| GreedyUntil
| Loglikelihood
| LoglikelihoodRolling
| LoglikelihoodSingleToken.

Definition request_of (op : operation) : Type :=
  match op with
  | GreedyUntil => GreedyUntilRequest
  | Loglikelihood => LoglikelihoodRequest
  | LoglikelihoodRolling => LoglikelihoodRollingRequest
  | LoglikelihoodSingleToken => LoglikelihoodSingleTokenRequest
  end.

Definition response_of (op : operation) : Type :=
  match op with
  | GreedyUntil => GenerateReturn
  | Loglikelihood => LoglikelihoodReturn
  | LoglikelihoodRolling => LoglikelihoodReturn
  | LoglikelihoodSingleToken => LoglikelihoodSingleTokenReturn
  end.

(** The queue an operation reads its responses from. *)
Definition queue (op : operation) (self : t) : list (response_of op) :=
  match op with
  | GreedyUntil => greedy_until_responses self
  | Loglikelihood => loglikelihood_responses self
  | LoglikelihoodRolling => loglikelihood_rolling_responses self
  | LoglikelihoodSingleToken => loglikelihood_single_token_responses self
  end.

Definition call (op : operation) (self : t) :
    list (request_of op) -> option Z -> Py.result (list (response_of op) * t) :=
  match op with
  | GreedyUntil => greedy_until self
  | Loglikelihood => loglikelihood self
  | LoglikelihoodRolling => loglikelihood_rolling self
  | LoglikelihoodSingleToken => loglikelihood_single_token self
  end.

(** The three scoring operations, the ones that write the queue they read. *)
Definition scoring (op : operation) : bool :=
  match op with
  | GreedyUntil => false
  | _ => true
  end.

(** C2, as the specification words it: a call with more requests than
    queued responses raises. *)
Definition underprovisioned_call_raises : Prop :=
  forall (op : operation) (self : t) (requests : list (request_of op)) bs,
    length (queue op self) < length requests ->
    Py.raises (call op self requests bs).

(** C3, as the specification words it: a call that is provided for returns
    the front of its queue and leaves the remainder queued. *)
Definition call_consumes_front : Prop :=
  forall (op : operation) (self : t) (requests : list (request_of op)) bs,
    length requests <= length (queue op self) ->
    exists self',
      call op self requests bs = Py.Ok (firstn (length requests) (queue op self), self')
      /\ queue op self' = skipn (length requests) (queue op self).

(** ** What a call returns and what it leaves behind *)

Lemma greedy_until_eq (self : t) requests bs :
  greedy_until self requests bs =
  Py.Ok (firstn (length requests) (greedy_until_responses self),
         {| _tokenizer := _tokenizer self;
            greedy_until_responses := greedy_until_responses self;
            loglikelihood_responses := loglikelihood_responses self;
            loglikelihood_rolling_responses := loglikelihood_rolling_responses self;
            loglikelihood_single_token_responses := loglikelihood_single_token_responses self;
            greedy_until_resp :=
              Some (skipn (length requests) (greedy_until_responses self)) |}).
Proof.
  unfold greedy_until, Py.len. now rewrite Py.slice_upto, Py.slice_from.
Qed.

Lemma call_returns_front (op : operation) (self : t) requests bs :
  exists self',
    call op self requests bs = Py.Ok (firstn (length requests) (queue op self), self').
Proof.
  destruct op; cbn [call queue];
    unfold greedy_until, loglikelihood, loglikelihood_rolling,
      loglikelihood_single_token, Py.len;
    rewrite Py.slice_upto; eexists; reflexivity.
Qed.

Lemma scoring_call_consumes (op : operation) (self : t) requests bs :
  scoring op = true ->
  exists self',
    call op self requests bs = Py.Ok (firstn (length requests) (queue op self), self')
    /\ queue op self' = skipn (length requests) (queue op self).
Proof.
  destruct op; cbn [scoring call queue]; intros Hs; try discriminate;
    unfold loglikelihood, loglikelihood_rolling, loglikelihood_single_token, Py.len;
    rewrite Py.slice_upto, Py.slice_from; eexists; split; reflexivity.
Qed.

Lemma greedy_until_keeps_queue (self self' : t) requests bs ret :
  greedy_until self requests bs = Py.Ok (ret, self') ->
  greedy_until_responses self' = greedy_until_responses self.
Proof.
  rewrite greedy_until_eq. intros H. injection H as _ <-. reflexivity.
Qed.

(** C2 (amended): whatever the operation, a call with more requests than
    the matching queue holds does not raise; it returns every response that
    is left, a list shorter than the request list. *)
Theorem underprovisioned_call_returns_short
    (op : operation) (self : t) (requests : list (request_of op)) bs :
  length (queue op self) < length requests ->
  ~ Py.raises (call op self requests bs)
  /\ exists ret self',
       call op self requests bs = Py.Ok (ret, self')
       /\ ret = queue op self
       /\ length ret < length requests.
Proof.
  intros Hshort.
  destruct (call_returns_front op self requests bs) as [self' Hcall].
  split.
  - intros [e He]. rewrite Hcall in He. discriminate.
  - exists (queue op self), self'. repeat split; trivial.
    rewrite Hcall. f_equal. f_equal. apply firstn_all2. lia.
Qed.

(** ** Further properties of the scripted model *)

Lemma firstn_plus {A} (a b : nat) (l : list A) :
  firstn (a + b) l = firstn a l ++ firstn b (skipn a l).
Proof.
  revert l. induction a as [| a IH]; intros l; [reflexivity |].
  destruct l as [| x l]; cbn [Nat.add firstn skipn app].
  - now rewrite firstn_nil.
  - now rewrite IH.
Qed.

(** X1: Two scoring calls in a row hand out what one call with both request
    lists would, and leave the model in the same state. *)
Theorem scoring_calls_compose (op : operation) (self : t)
    (first second : list (request_of op)) bs :
  scoring op = true ->
  exists ret1 self1 ret2 self2,
    call op self first bs = Py.Ok (ret1, self1)
    /\ call op self1 second bs = Py.Ok (ret2, self2)
    /\ call op self (first ++ second) bs = Py.Ok (ret1 ++ ret2, self2).
Proof.
  destruct op; cbn [scoring call]; intros Hs; try discriminate;
    unfold loglikelihood, loglikelihood_rolling, loglikelihood_single_token, Py.len;
    do 4 eexists; (split; [reflexivity |]); (split; [reflexivity |]);
    cbn [loglikelihood_responses loglikelihood_rolling_responses
         loglikelihood_single_token_responses greedy_until_responses
         _tokenizer greedy_until_resp];
    rewrite !Py.slice_upto, !Py.slice_from, length_app, firstn_plus, skipn_skipn,
      (Nat.add_comm (length second)); reflexivity.
Qed.

(** X2: A call never touches the queue of another operation, and
    [greedy_until] touches none of the four, not even its own. *)
Theorem call_keeps_other_queues (op other : operation) (self self' : t)
    (requests : list (request_of op)) bs (ret : list (response_of op)) :
  op <> other \/ op = GreedyUntil ->
  call op self requests bs = Py.Ok (ret, self') ->
  queue other self' = queue other self /\ _tokenizer self' = _tokenizer self.
Proof.
  intros Hother Hcall.
  destruct op; cbn [call] in Hcall;
    unfold greedy_until, loglikelihood, loglikelihood_rolling,
      loglikelihood_single_token in Hcall;
    injection Hcall as _ <-;
    (split; [| reflexivity]);
    destruct other; cbn; try reflexivity;
    destruct Hother as [Hneq | Heq]; try discriminate; now contradiction Hneq.
Qed.

(** X3: What a call returns is a prefix of its queue, as long as the shorter of
    the request list and the queue. *)
Theorem call_returns_bounded_prefix (op : operation) (self : t)
    (requests : list (request_of op)) bs :
  exists ret self' rest,
    call op self requests bs = Py.Ok (ret, self')
    /\ queue op self = ret ++ rest
    /\ length ret = Nat.min (length requests) (length (queue op self)).
Proof.
  exists (firstn (length requests) (queue op self)).
  assert (Hcall : exists self',
             call op self requests bs =
             Py.Ok (firstn (length requests) (queue op self), self')).
  { destruct op; cbn [call queue];
      unfold greedy_until, loglikelihood, loglikelihood_rolling,
        loglikelihood_single_token, Py.len;
      rewrite Py.slice_upto; eexists; reflexivity. }
  destruct Hcall as [self' Hcall].
  exists self', (skipn (length requests) (queue op self)).
  split; [exact Hcall |]. split.
  - symmetry. apply firstn_skipn.
  - apply length_firstn.
Qed.

(** X4: Once a scoring call has asked for at least as many responses as were
    queued, the queue is empty and every later call of that operation
    returns the empty list. *)
Theorem scoring_queue_runs_dry (op : operation) (self : t)
    (requests later : list (request_of op)) bs :
  scoring op = true ->
  length (queue op self) <= length requests ->
  exists ret self1 self2,
    call op self requests bs = Py.Ok (ret, self1)
    /\ queue op self1 = []
    /\ call op self1 later bs = Py.Ok ([], self2)
    /\ queue op self2 = [].
Proof.
  intros Hs Hlen.
  destruct (scoring_call_consumes op self requests bs Hs) as (self1 & Hcall1 & Hq1).
  rewrite (skipn_all2 _ Hlen) in Hq1.
  destruct (scoring_call_consumes op self1 later bs Hs) as (self2 & Hcall2 & Hq2).
  rewrite Hq1, firstn_nil in Hcall2. rewrite Hq1, skipn_nil in Hq2.
  now exists (firstn (length requests) (queue op self)), self1, self2.
Qed.

End Model.

(** A fixture in the shape of the regression tests: responses and
    requests are told apart by a number. *)
Definition fixture (generations loglikelihoods : list nat) : t nat nat nat unit :=
    __init__ unit generations loglikelihoods [] [].

Definition one_generation : list unit := [tt].

Definition two_scores : list unit := [tt; tt].

(** C2, counterexample: two log-likelihood requests against a queue of one
    response.  The call returns that one response instead of raising. *)
Lemma underprovisioned_loglikelihood_does_not_raise :
  ~ Py.raises (loglikelihood (fixture [] [7]) two_scores None)
  /\ (exists self', loglikelihood (fixture [] [7]) two_scores None = Py.Ok ([7], self'))
  /\ ~ underprovisioned_call_raises nat nat nat unit unit unit unit unit.
Proof.
  assert (Hrun : exists self',
             loglikelihood (fixture [] [7]) two_scores None = Py.Ok ([7], self'))
    by (eexists; reflexivity).
  assert (Hno : ~ Py.raises (loglikelihood (fixture [] [7]) two_scores None)).
  { destruct Hrun as [self' Hrun]. intros [e He]. rewrite Hrun in He. discriminate. }
  repeat split; trivial.
  intros Hclaim. apply Hno.
  apply (Hclaim Loglikelihood (fixture [] [7]) two_scores None).
  cbn. lia.
Qed.

Lemma underprovisioned_call_returns_short_witness :
  length (queue Loglikelihood (fixture [] [7])) < length two_scores
  /\ ~ Py.raises (call unit unit unit unit Loglikelihood (fixture [] [7]) two_scores None).
Proof.
  assert (H : length (queue Loglikelihood (fixture [] [7])) < length two_scores)
    by (cbn; lia).
  split; [exact H |].
  exact (proj1 (underprovisioned_call_returns_short unit unit unit unit
                  Loglikelihood (fixture [] [7]) two_scores None H)).
Defined.

(** C3, at the failing input: a model scripted with the generations 1 and 2
    answers two successive single-request [greedy_until] calls with 1 both
    times, and its queue still holds both generations afterwards; the
    remainder went to the attribute [greedy_until_resp]. *)
Theorem greedy_until_replays_front :
  exists self1 self2,
    greedy_until (fixture [1; 2] []) one_generation None = Py.Ok ([1], self1)
    /\ greedy_until self1 one_generation None = Py.Ok ([1], self2)
    /\ greedy_until_responses self1 = [1; 2]
    /\ greedy_until_resp self1 = Some [2]
    /\ queue GreedyUntil self1 <>
         skipn (length one_generation) (queue GreedyUntil (fixture [1; 2] []))
    /\ ~ call_consumes_front nat nat nat unit unit unit unit unit.
Proof.
  do 2 eexists. repeat split; try reflexivity.
  - cbn. discriminate.
  - intros Hclaim.
    destruct (Hclaim GreedyUntil (fixture [1; 2] []) one_generation None)
      as (self' & Hcall & Hqueue); [cbn; lia |].
    cbn [call] in Hcall.
    apply greedy_until_keeps_queue in Hcall.
    cbn [queue] in Hqueue. rewrite Hcall in Hqueue. discriminate.
Qed.

(** X5: The tokenizer is loaded on the first access only: a later access
    returns the tokenizer kept on the instance, whatever the loader would
    give then, and no access touches a queue. *)
Theorem tokenizer_is_loaded_once
    (GenerateReturn LoglikelihoodReturn LoglikelihoodSingleTokenReturn Tokenizer : Type)
    (load load_later : string -> Tokenizer)
    (self : t GenerateReturn LoglikelihoodReturn LoglikelihoodSingleTokenReturn Tokenizer) :
  tokenizer load_later (snd (tokenizer load self)) = tokenizer load self
  /\ forall op, queue op (snd (tokenizer load self)) = queue op self.
Proof.
  unfold tokenizer. destruct (_tokenizer self) as [tok |] eqn:Htok; cbn [snd].
  - rewrite Htok. split; [reflexivity |]. intros op. reflexivity.
  - cbn [_tokenizer]. split; [reflexivity |]. intros op. destruct op; reflexivity.
Qed.

Lemma scoring_calls_compose_witness :
  exists ret1 self1 ret2 self2,
    call unit unit unit unit Loglikelihood (fixture [] [7; 8; 9]) one_generation None =
      Py.Ok (ret1, self1)
    /\ call unit unit unit unit Loglikelihood self1 two_scores None = Py.Ok (ret2, self2)
    /\ call unit unit unit unit Loglikelihood (fixture [] [7; 8; 9])
         (one_generation ++ two_scores) None = Py.Ok (ret1 ++ ret2, self2).
Proof.
  exact (scoring_calls_compose unit unit unit unit Loglikelihood (fixture [] [7; 8; 9])
           one_generation two_scores None eq_refl).
Defined.

Lemma call_keeps_other_queues_witness :
  queue GreedyUntil
    ({| _tokenizer := None; greedy_until_responses := [1];
        loglikelihood_responses := []; loglikelihood_rolling_responses := [];
        loglikelihood_single_token_responses := []; greedy_until_resp := None |}
     : t nat nat nat unit)
  = queue GreedyUntil (fixture [1] [7]).
Proof.
  refine (proj1 (@call_keeps_other_queues nat nat nat unit unit unit unit unit
                   Loglikelihood GreedyUntil (fixture [1] [7]) _ two_scores None [7]
                   (or_introl _) eq_refl)).
  discriminate.
Defined.

Lemma scoring_queue_runs_dry_witness :
  exists ret self1 self2,
    call unit unit unit unit Loglikelihood (fixture [] [7]) two_scores None =
      Py.Ok (ret, self1)
    /\ queue Loglikelihood self1 = []
    /\ call unit unit unit unit Loglikelihood self1 one_generation None = Py.Ok ([], self2)
    /\ queue Loglikelihood self2 = [].
Proof.
  apply (scoring_queue_runs_dry unit unit unit unit Loglikelihood (fixture [] [7])
           two_scores one_generation None eq_refl).
  cbn. lia.
Defined.

End FakeModel.

(* ================================================================== *)
(** * src/lighteval/metrics/llm_as_judge.py *)
(* ================================================================== *)

Module JudgeLM.

Import Py.

(** [SamplingParams(temperature=0.8, top_p=0.95, max_tokens=512)]; the two
    fractions are kept as hundredths, they are only handed on to vllm. *)
Record SamplingParams : Type := {
  temperature_pct : Z;
  top_p_pct : Z;
  max_tokens : Z
}.

Section Judge.

(** Python objects that travel through the judge: prompts, raw responses
    and scores.  With the identity handler a prompt comes back as a
    response, so the three share one type. *)
Variable Obj : Type.

(** The clients of the backends, and what the outside world does when they
    are built and called.  [create calls ...] is the outcome of
    [client.chat.completions.create(...)] when [calls] requests went to the
    service before; it yields the message contents of [response.choices]. *)
Variables Client Pipe : Type.
Variable OpenAI : option string -> option string -> Py.result Client.
Variable create : nat -> Client -> string -> Obj -> Z -> Z -> Py.result (list Obj).
Variable transformers_pipeline : string -> Z -> Py.result Pipe.
Variable pipe_call : Pipe -> Obj -> Py.result (list (list Obj)).
Variable LLM : string -> Z -> Z -> Py.result Pipe.
Variable pipe_chat : Pipe -> Obj -> SamplingParams -> Py.result (list (list Obj)).

Record t : Type := mk {
  model : string;
  template : string -> option (list string) -> string -> option string -> Py.result Obj;
  API_MAX_RETRY : Z;
  API_RETRY_SLEEP : Z;
  client : option Client;
  pipe : option Pipe;
  process_judge_response : Obj -> Py.result Obj;
  url : option string;
  api_key : option string;
  backend : string;
  sampling_params : option SamplingParams
}.

Definition __init__ (model : string)
    (templates : string -> option (list string) -> string -> option string -> Py.result Obj)
    (process_judge_response : Obj -> Py.result Obj)
    (judge_backend : string) (url api_key : option string) : t :=
  {| model := model;
     template := templates;
     API_MAX_RETRY := 3;
     API_RETRY_SLEEP := 1;
     client := None;
     pipe := None;
     process_judge_response := process_judge_response;
     url := url;
     api_key := api_key;
     backend := judge_backend;
     sampling_params := None |}.

Definition set_client (self : t) (c : Client) : t :=
  {| model := model self; template := template self;
     API_MAX_RETRY := API_MAX_RETRY self; API_RETRY_SLEEP := API_RETRY_SLEEP self;
     client := Some c; pipe := pipe self;
     process_judge_response := process_judge_response self;
     url := url self; api_key := api_key self; backend := backend self;
     sampling_params := sampling_params self |}.

Definition set_pipe (self : t) (p : Pipe) (sp : option SamplingParams) : t :=
  {| model := model self; template := template self;
     API_MAX_RETRY := API_MAX_RETRY self; API_RETRY_SLEEP := API_RETRY_SLEEP self;
     client := client self; pipe := Some p;
     process_judge_response := process_judge_response self;
     url := url self; api_key := api_key self; backend := backend self;
     sampling_params := sp |}.

Definition set_sampling_params (self : t) (sp : SamplingParams) : t :=
  {| model := model self; template := template self;
     API_MAX_RETRY := API_MAX_RETRY self; API_RETRY_SLEEP := API_RETRY_SLEEP self;
     client := client self; pipe := pipe self;
     process_judge_response := process_judge_response self;
     url := url self; api_key := api_key self; backend := backend self;
     sampling_params := Some sp |}.

(** What the judge does to the outside world, in order.  [EvCreate] stands
    for the call [self.client.chat.completions.create(...)] of one round of
    [__call_api]. *)
Inductive event : Type :=
| EvCreate (model : string) (messages : Obj) (max_tokens n : Z)
| EvWarn (e : Py.exn)
| EvSleep (seconds : Z).

Definition trace : Type := list event.

Definition is_create (ev : event) : bool :=
  match ev with
  | EvCreate _ _ _ _ => true
  | _ => false
  end.

(** Number of requests sent to the HTTP service so far. *)
Definition calls_made (tr : trace) : nat := length (filter is_create tr).

(** The bound method [__lazy_load_client] hands back. *)
Inductive handler : Type :=
| call_api
| call_transformers
| call_vllm
| identity.

(** [seq[0]] *)
Definition item0 {A} (l : list A) : Py.result A :=
  match l with
  | x :: _ => Ok x
  | [] => Raise (IndexError "list index out of range")
  end.

(** [seq[-1]] *)
Definition item_last {A} (l : list A) : Py.result A :=
  match rev l with
  | x :: _ => Ok x
  | [] => Raise (IndexError "list index out of range")
  end.

Definition __lazy_load_client (self : t) : Py.result (handler * t) :=
  if ((backend self =? "openai") || (backend self =? "tgi"))%string then
    match client self with
    | None =>
        c <- (match url self with
              | None => OpenAI None (api_key self)
              | Some u => OpenAI (Some u) (api_key self)
              end) ;;
        Ok (call_api, set_client self c)
    | Some _ => Ok (call_api, self)
    end
  else if (backend self =? "transformers")%string then
    match pipe self with
    | None =>
        p <- transformers_pipeline (model self) 256 ;;
        Ok (call_transformers, set_pipe self p (sampling_params self))
    | Some _ => Ok (call_transformers, self)
    end
  else if (backend self =? "vllm")%string then
    match pipe self with
    | None =>
        let sp := {| temperature_pct := 80; top_p_pct := 95; max_tokens := 512 |} in
        p <- LLM (model self) 4096 50 ;;
        Ok (call_vllm, set_pipe self p (Some sp))
    | Some _ => Ok (call_vllm, self)
    end
  else Ok (identity, self).

(** The judge as a load that raises leaves it.  Only the vllm case assigns
    an attribute before the call that can raise: [self.sampling_params] is
    set, then [LLM(...)] is called. *)
Definition interrupted_load (self : t) : t :=
  if (backend self =? "vllm")%string then
    match pipe self with
    | None =>
        set_sampling_params self
          {| temperature_pct := 80; top_p_pct := 95; max_tokens := 512 |}
    | Some _ => self
    end
  else self.

Definition __call_transformers (self : t) (prompt : Obj) : Py.result Obj :=
  match pipe self with
  | None => Raise (TypeError "'NoneType' object is not callable")
  | Some p =>
      outs <- pipe_call p prompt ;;
      response <- item0 outs ;;
      item_last response
  end.

Definition __call_vllm (self : t) (prompt : Obj) : Py.result Obj :=
  match pipe self with
  | None => Raise (AttributeError "'NoneType' object has no attribute 'chat'")
  | Some p =>
      match sampling_params self with
      | None => Raise (AttributeError "'JudgeLM' object has no attribute 'sampling_params'")
      | Some sp =>
          outs <- pipe_chat p prompt sp ;;
          output <- item0 outs ;;
          item0 output
      end
  end.

(** The body of the [try]: one request and the extraction of
    [response.choices[0].message.content]. *)
Definition attempt (self : t) (prompt : Obj) (calls : nat) : Py.result Obj :=
  match client self with
  | None => Raise (AttributeError "'NoneType' object has no attribute 'chat'")
  | Some c =>
      choices <- create calls c (model self) prompt 512 1 ;;
      item0 choices
  end.

(** What one failed round leaves in the trace: the request, the warning and
    the sleep of the [except] clause. *)
Definition failed_round (self : t) (prompt : Obj) (e : Py.exn) : trace :=
  [EvCreate (model self) prompt 512 1; EvWarn e; EvSleep (API_RETRY_SLEEP self)].

(** [for _ in range(n): try ... except ...], then the final [raise]. *)
Fixpoint retry_loop (n : nat) (self : t) (prompt : Obj) (tr : trace)
    : Py.result Obj * trace :=
  match n with
  | O => (Raise (Exception "Failed to get response from the API"), tr)
  | S n' =>
      match attempt self prompt (calls_made tr) with
      | Ok content => (Ok content, tr ++ [EvCreate (model self) prompt 512 1])
      | Raise e => retry_loop n' self prompt (tr ++ failed_round self prompt e)
      end
  end.

Definition __call_api (self : t) (prompt : Obj) (tr : trace) : Py.result Obj * trace :=
  retry_loop (Z.to_nat (API_MAX_RETRY self)) self prompt tr.

Definition run_handler (h : handler) (self : t) (prompt : Obj) (tr : trace)
    : Py.result Obj * trace :=
  match h with
  | call_api => __call_api self prompt tr
  | call_transformers => (__call_transformers self prompt, tr)
  | call_vllm => (__call_vllm self prompt, tr)
  | identity => (Ok prompt, tr)
  end.

(** [evaluate_answer] returns its triple together with the judge as the
    call leaves it (the backend client is cached on it) and the trace. *)
Definition evaluate_answer (self : t) (question answer : string)
    (options : option (list string)) (gold : option string) (tr : trace)
    : Py.result (Obj * Obj * Obj) * t * trace :=
  match __lazy_load_client self with
  | Raise e => (Raise e, interrupted_load self, tr)
  | Ok (judge_function, self') =>
      match template self' question options answer gold with
      | Raise e => (Raise e, self', tr)
      | Ok prompt =>
          match run_handler judge_function self' prompt tr with
          | (Raise e, tr') => (Raise e, self', tr')
          | (Ok response, tr') =>
              match process_judge_response self' response with
              | Raise e => (Raise e, self', tr')
              | Ok score => (Ok (score, prompt, response), self', tr')
              end
          end
      end
  end.

Definition recognised (b : string) : bool :=
  ((b =? "openai") || (b =? "tgi") || (b =? "transformers") || (b =? "vllm"))%string.

(** ** The retry loop *)

Lemma calls_made_app (tr tr' : trace) :
  calls_made (tr ++ tr') = calls_made tr + calls_made tr'.
Proof.
  unfold calls_made. now rewrite filter_app, length_app.
Qed.

Lemma calls_made_failed_round (self : t) prompt e :
  calls_made (failed_round self prompt e) = 1.
Proof. reflexivity. Qed.

Lemma calls_made_failed_rounds (self : t) prompt es :
  calls_made (flat_map (failed_round self prompt) es) = length es.
Proof.
  induction es as [| e es IH]; [reflexivity |].
  cbn [flat_map length]. rewrite calls_made_app, calls_made_failed_round, IH.
  reflexivity.
Qed.

Lemma retry_loop_exhausted (n : nat) (self : t) prompt :
  forall tr,
    (forall i, i < n -> raises (attempt self prompt (calls_made tr + i))) ->
    exists es,
      length es = n
      /\ retry_loop n self prompt tr =
         (Raise (Exception "Failed to get response from the API"),
          tr ++ flat_map (failed_round self prompt) es).
Proof.
  induction n as [| n IH]; intros tr Hfail.
  - exists []. split; [reflexivity |]. cbn. now rewrite app_nil_r.
  - destruct (Hfail 0) as [e He]; [lia |].
    rewrite Nat.add_0_r in He.
    destruct (IH (tr ++ failed_round self prompt e)) as (es & Hlen & Hrun).
    + intros i Hi. rewrite calls_made_app, calls_made_failed_round.
      replace (calls_made tr + 1 + i) with (calls_made tr + S i) by lia.
      apply Hfail. lia.
    + exists (e :: es). split; [cbn; lia |].
      cbn [retry_loop]. rewrite He, Hrun. cbn [flat_map].
      now rewrite <- app_assoc.
Qed.

Lemma retry_loop_first_success (k : nat) (self : t) prompt content :
  forall n tr,
    k < n ->
    (forall i, i < k -> raises (attempt self prompt (calls_made tr + i))) ->
    attempt self prompt (calls_made tr + k) = Ok content ->
    exists es,
      length es = k
      /\ retry_loop n self prompt tr =
         (Ok content,
          tr ++ flat_map (failed_round self prompt) es
             ++ [EvCreate (model self) prompt 512 1]).
Proof.
  induction k as [| k IH]; intros n tr Hlt Hfail Hok.
  - destruct n as [| n]; [lia |].
    rewrite Nat.add_0_r in Hok.
    exists []. split; [reflexivity |]. cbn [retry_loop flat_map app]. now rewrite Hok.
  - destruct n as [| n]; [lia |].
    destruct (Hfail 0) as [e He]; [lia |].
    rewrite Nat.add_0_r in He.
    destruct (IH n (tr ++ failed_round self prompt e)) as (es & Hlen & Hrun).
    + lia.
    + intros i Hi. rewrite calls_made_app, calls_made_failed_round.
      replace (calls_made tr + 1 + i) with (calls_made tr + S i) by lia.
      apply Hfail. lia.
    + rewrite calls_made_app, calls_made_failed_round.
      replace (calls_made tr + 1 + k) with (calls_made tr + S k) by lia.
      exact Hok.
    + exists (e :: es). split; [cbn; lia |].
      cbn [retry_loop]. rewrite He, Hrun. cbn [flat_map].
      now rewrite <- !app_assoc.
Qed.

Lemma attempt_raises_when_service_does (self : t) prompt :
  (forall calls c, raises (create calls c (model self) prompt 512 1)) ->
  forall calls, raises (attempt self prompt calls).
Proof.
  intros Hdown calls. unfold attempt.
  destruct (client self) as [c |]; [| eexists; reflexivity].
  destruct (Hdown calls c) as [e He]. rewrite He. exists e. reflexivity.
Qed.

(** C5: with a backend name outside the four known ones, [evaluate_answer]
    does not raise.  The handler is the identity, so the response is the
    rendered prompt itself and the score is [process_judge_response] of that
    prompt; nothing is sent anywhere and the judge is left as it was. *)
Theorem unrecognised_backend_echoes_prompt
    (self : t) (question answer : string) (options : option (list string))
    (gold : option string) (tr : trace) (prompt score : Obj) :
  recognised (backend self) = false ->
  template self question options answer gold = Ok prompt ->
  process_judge_response self prompt = Ok score ->
  __lazy_load_client self = Ok (identity, self)
  /\ evaluate_answer self question answer options gold tr =
     (Ok (score, prompt, prompt), self, tr).
Proof.
  intros Hb Ht Hp.
  unfold recognised in Hb.
  apply orb_false_iff in Hb as [Hb Hvllm].
  apply orb_false_iff in Hb as [Hb Htr].
  apply orb_false_iff in Hb as [Hopenai Htgi].
  assert (Hload : __lazy_load_client self = Ok (identity, self)).
  { unfold __lazy_load_client. now rewrite Hopenai, Htgi, Htr, Hvllm. }
  split; [exact Hload |].
  unfold evaluate_answer. rewrite Hload, Ht. cbn [run_handler]. now rewrite Hp.
Qed.

(** C6: the HTTP-backed call with the budget [__init__] sets (3 attempts,
    1 second).  When every request to the service raises, exactly three
    requests are made, each followed by a warning and a sleep of 1 second,
    and the call raises the generic failure.  When the first [k < 3] attempts
    raise and the next one succeeds, its content is returned at once: the
    trace ends with that request, [k + 1] requests in all. *)
Theorem call_api_retries_three_times (self : t) (prompt : Obj) (tr : trace) :
  API_MAX_RETRY self = 3%Z ->
  API_RETRY_SLEEP self = 1%Z ->
  ((forall calls c, raises (create calls c (model self) prompt 512 1)) ->
   exists e1 e2 e3,
     __call_api self prompt tr =
       (Raise (Exception "Failed to get response from the API"),
        tr ++ [EvCreate (model self) prompt 512 1; EvWarn e1; EvSleep 1;
               EvCreate (model self) prompt 512 1; EvWarn e2; EvSleep 1;
               EvCreate (model self) prompt 512 1; EvWarn e3; EvSleep 1])
     /\ calls_made (snd (__call_api self prompt tr)) = calls_made tr + 3)
  /\ (forall k content,
        k < 3 ->
        (forall i, i < k -> raises (attempt self prompt (calls_made tr + i))) ->
        attempt self prompt (calls_made tr + k) = Ok content ->
        exists es,
          length es = k
          /\ __call_api self prompt tr =
             (Ok content,
              tr ++ flat_map (failed_round self prompt) es
                 ++ [EvCreate (model self) prompt 512 1])
          /\ calls_made (snd (__call_api self prompt tr)) = calls_made tr + k + 1).
Proof.
  intros Hretry Hsleep. unfold __call_api. rewrite Hretry.
  change (Z.to_nat 3) with 3. split.
  - intros Hdown.
    destruct (@retry_loop_exhausted 3 self prompt tr) as (es & Hlen & Hrun).
    { intros i _. now apply attempt_raises_when_service_does. }
    destruct es as [| e1 [| e2 [| e3 [| e4 es]]]]; try discriminate.
    exists e1, e2, e3. rewrite Hrun. unfold failed_round. rewrite Hsleep.
    split; [reflexivity |].
    cbn [snd flat_map app]. rewrite calls_made_app. reflexivity.
  - intros k content Hk Hfail Hok.
    destruct (@retry_loop_first_success k self prompt content 3 tr Hk Hfail Hok)
      as (es & Hlen & Hrun).
    exists es. rewrite Hrun. repeat split; trivial.
    cbn [snd]. rewrite !calls_made_app, calls_made_failed_rounds, Hlen.
    cbn. lia.
Qed.

(** ** Further properties of the judge *)

Lemma retry_loop_bounded (n : nat) (self : t) prompt :
  forall tr,
    exists ext,
      snd (retry_loop n self prompt tr) = tr ++ ext
      /\ calls_made ext <= n
      /\ (forall e,
            fst (retry_loop n self prompt tr) = Raise e ->
            e = Exception "Failed to get response from the API"
            /\ calls_made ext = n).
Proof.
  induction n as [| n IH]; intros tr.
  - exists []. cbn. rewrite app_nil_r. split; [reflexivity |]. split; [lia |].
    intros e He. injection He as <-. now split.
  - cbn [retry_loop]. destruct (attempt self prompt (calls_made tr)) as [content | e0].
    + exists [EvCreate (model self) prompt 512 1]. cbn [fst snd].
      split; [reflexivity |]. split; [cbn; lia |]. intros e He. discriminate.
    + destruct (IH (tr ++ failed_round self prompt e0)) as (ext & Hext & Hle & Hraise).
      exists (failed_round self prompt e0 ++ ext).
      rewrite Hext, <- app_assoc, calls_made_app, calls_made_failed_round.
      split; [reflexivity |]. split; [lia |].
      intros e He. destruct (Hraise e He) as [-> Hn]. split; [reflexivity | lia].
Qed.



Lemma lazy_load_keeps_settings (self self' : t) (h : handler) :
  __lazy_load_client self = Ok (h, self') ->
  model self' = model self
  /\ template self' = template self
  /\ process_judge_response self' = process_judge_response self
  /\ backend self' = backend self
  /\ API_MAX_RETRY self' = API_MAX_RETRY self
  /\ API_RETRY_SLEEP self' = API_RETRY_SLEEP self.
Proof.
  unfold __lazy_load_client.
  destruct ((backend self =? "openai") || (backend self =? "tgi"))%string.
  { destruct (client self).
    - intros H. injection H as _ <-. now repeat split.
    - destruct (url self); destruct (OpenAI _ (api_key self)); cbn;
        intros H; try discriminate; injection H as _ <-; now repeat split. }
  destruct (backend self =? "transformers")%string.
  { destruct (pipe self).
    - intros H. injection H as _ <-. now repeat split.
    - destruct (transformers_pipeline (model self) 256); cbn;
        intros H; try discriminate; injection H as _ <-; now repeat split. }
  destruct (backend self =? "vllm")%string.
  { destruct (pipe self).
    - intros H. injection H as _ <-. now repeat split.
    - destruct (LLM (model self) 4096 50); cbn;
        intros H; try discriminate; injection H as _ <-; now repeat split. }
  intros H. injection H as _ <-. now repeat split.
Qed.

(** X7: When [evaluate_answer] returns a triple, whatever the backend, the
    prompt is the template's rendering of the four arguments, the score is
    [process_judge_response] of the returned response, and the trace has
    only grown. *)
Theorem evaluate_answer_triple_is_consistent
    (self self' : t) (question answer : string) (options : option (list string))
    (gold : option string) (tr tr' : trace) (score prompt response : Obj) :
  evaluate_answer self question answer options gold tr =
    (Ok (score, prompt, response), self', tr') ->
  template self question options answer gold = Ok prompt
  /\ process_judge_response self response = Ok score
  /\ backend self' = backend self
  /\ exists ext, tr' = tr ++ ext.
Proof.
  unfold evaluate_answer.
  destruct (__lazy_load_client self) as [[h self1] | e] eqn:Hload; [| discriminate].
  destruct (@lazy_load_keeps_settings self self1 h Hload) as (_ & Htemplate & Hprocess & Hbackend & _).
  rewrite Htemplate, Hprocess.
  destruct (template self question options answer gold) as [p | e]; [| discriminate].
  destruct (run_handler h self1 p tr) as [[r | e] tr1] eqn:Hrun; [| discriminate].
  destruct (process_judge_response self r) as [sc | e] eqn:Hscore; [| discriminate].
  intros H. injection H as <- <- <- <- <-.
  repeat split; trivial.
  destruct h; cbn [run_handler] in Hrun.
  - unfold __call_api in Hrun.
    destruct (retry_loop_bounded (Z.to_nat (API_MAX_RETRY self1)) self1 p tr)
      as (ext & Hext & _).
    rewrite Hrun in Hext. exists ext. exact Hext.
  - injection Hrun as _ <-. exists []. now rewrite app_nil_r.
  - injection Hrun as _ <-. exists []. now rewrite app_nil_r.
  - injection Hrun as _ <-. exists []. now rewrite app_nil_r.
Qed.

Lemma fresh_http_judge_loads_client (model_name : string)
    (templates : string -> option (list string) -> string -> option string -> Py.result Obj)
    (process : Obj -> Py.result Obj) (judge_backend : string)
    (base_url key : option string) (c : Client) :
  judge_backend = "openai"%string \/ judge_backend = "tgi"%string ->
  OpenAI base_url key = Ok c ->
  __lazy_load_client (__init__ model_name templates process judge_backend base_url key) =
  Ok (call_api,
      set_client (__init__ model_name templates process judge_backend base_url key) c).
Proof.
  intros Hb Hc. unfold __lazy_load_client.
  cbn [backend client url api_key __init__].
  assert (Hhttp : ((judge_backend =? "openai") || (judge_backend =? "tgi"))%string = true)
    by (destruct Hb as [-> | ->]; reflexivity).
  rewrite Hhttp. destruct base_url; now rewrite Hc.
Qed.

(** X8: A judge fresh from [__init__] on the openai or tgi backend, against a
    service every request to which raises: the client is built and kept, the
    prompt is rendered, three requests are sent, each followed by a warning
    and a sleep of 1 second, and [evaluate_answer] raises the generic
    failure. *)
Theorem unreachable_service_fails_evaluation (model_name : string)
    (templates : string -> option (list string) -> string -> option string -> Py.result Obj)
    (process : Obj -> Py.result Obj) (judge_backend : string)
    (base_url key : option string) (c : Client)
    (question answer : string) (options : option (list string)) (gold : option string)
    (tr : trace) (prompt : Obj) :
  judge_backend = "openai"%string \/ judge_backend = "tgi"%string ->
  OpenAI base_url key = Ok c ->
  templates question options answer gold = Ok prompt ->
  (forall calls c', raises (create calls c' model_name prompt 512 1)) ->
  exists e1 e2 e3,
    evaluate_answer (__init__ model_name templates process judge_backend base_url key)
      question answer options gold tr =
    (Raise (Exception "Failed to get response from the API"),
     set_client (__init__ model_name templates process judge_backend base_url key) c,
     tr ++ [EvCreate model_name prompt 512 1; EvWarn e1; EvSleep 1;
            EvCreate model_name prompt 512 1; EvWarn e2; EvSleep 1;
            EvCreate model_name prompt 512 1; EvWarn e3; EvSleep 1]).
Proof.
  intros Hb Hc Ht Hdown.
  set (judge := __init__ model_name templates process judge_backend base_url key).
  destruct (@retry_loop_exhausted 3 (set_client judge c) prompt tr) as (es & Hlen & Hrun).
  { intros i _. now apply attempt_raises_when_service_does. }
  destruct es as [| e1 [| e2 [| e3 [| e4 es]]]]; try discriminate.
  exists e1, e2, e3.
  unfold evaluate_answer. unfold judge at 1.
  rewrite (fresh_http_judge_loads_client model_name templates process Hb Hc).
  fold judge. cbn [template set_client]. unfold judge at 1. cbn [template __init__].
  rewrite Ht. cbn [run_handler]. unfold __call_api.
  change (Z.to_nat (API_MAX_RETRY (set_client judge c))) with 3.
  rewrite Hrun. reflexivity.
Qed.

(** X9: The same judge against a service that answers the first request: one
    request is sent, nothing is slept, and the triple holds the score of the
    first choice's content, the prompt and that content. *)
Theorem reachable_service_scores_answer (model_name : string)
    (templates : string -> option (list string) -> string -> option string -> Py.result Obj)
    (process : Obj -> Py.result Obj) (judge_backend : string)
    (base_url key : option string) (c : Client)
    (question answer : string) (options : option (list string)) (gold : option string)
    (tr : trace) (prompt content score : Obj) (others : list Obj) :
  judge_backend = "openai"%string \/ judge_backend = "tgi"%string ->
  OpenAI base_url key = Ok c ->
  templates question options answer gold = Ok prompt ->
  create (calls_made tr) c model_name prompt 512 1 = Ok (content :: others) ->
  process content = Ok score ->
  evaluate_answer (__init__ model_name templates process judge_backend base_url key)
    question answer options gold tr =
  (Ok (score, prompt, content),
   set_client (__init__ model_name templates process judge_backend base_url key) c,
   tr ++ [EvCreate model_name prompt 512 1]).
Proof.
  intros Hb Hc Ht Hcreate Hscore.
  unfold evaluate_answer.
  rewrite (fresh_http_judge_loads_client model_name templates process Hb Hc).
  cbn [template set_client __init__]. rewrite Ht.
  cbn [run_handler]. unfold __call_api.
  cbn [API_MAX_RETRY set_client __init__]. change (Z.to_nat 3) with 3.
  cbn [retry_loop]. unfold attempt. cbn [client set_client model __init__].
  rewrite Hcreate. cbn [bind item0].
  change (process_judge_response
            (set_client
               (__init__ model_name templates process judge_backend base_url key) c)
            content)
    with (process content).
  now rewrite Hscore.
Qed.

Lemma item_last_snoc {A} (earlier : list A) (x : A) :
  item_last (earlier ++ [x]) = Ok x.
Proof. unfold item_last. now rewrite rev_app_distr. Qed.

(** X10: A judge fresh from [__init__] on the transformers backend: the pipeline
    is built for the model with 256 new tokens and kept, and the response is
    the content of the last message of the first generated conversation;
    nothing goes to the HTTP service. *)
Theorem transformers_judge_reads_last_message (model_name : string)
    (templates : string -> option (list string) -> string -> option string -> Py.result Obj)
    (process : Obj -> Py.result Obj) (base_url key : option string) (p : Pipe)
    (question answer : string) (options : option (list string)) (gold : option string)
    (tr : trace) (prompt content score : Obj) (earlier : list Obj)
    (others : list (list Obj)) :
  transformers_pipeline model_name 256 = Ok p ->
  templates question options answer gold = Ok prompt ->
  pipe_call p prompt = Ok ((earlier ++ [content]) :: others) ->
  process content = Ok score ->
  evaluate_answer (__init__ model_name templates process "transformers" base_url key)
    question answer options gold tr =
  (Ok (score, prompt, content),
   set_pipe (__init__ model_name templates process "transformers" base_url key) p None,
   tr).
Proof.
  intros Hp Ht Hcall Hscore.
  unfold evaluate_answer, __lazy_load_client.
  cbn [backend pipe model __init__ String.eqb Ascii.eqb Bool.eqb orb].
  rewrite Hp. cbn [bind sampling_params __init__ template set_pipe].
  rewrite Ht. cbn [run_handler]. unfold __call_transformers.
  cbn [pipe set_pipe]. rewrite Hcall. cbn [bind item0]. rewrite item_last_snoc.
  change (process_judge_response
            (set_pipe (__init__ model_name templates process "transformers" base_url key)
               p None) content)
    with (process content).
  now rewrite Hscore.
Qed.

(** X11: A judge fresh from [__init__] on the vllm backend: the engine is built
    with a context of 4096 tokens and half of the GPU memory, the sampling
    parameters (0.8, 0.95, 512 tokens) are kept with it, and the response is
    the first text of the first output. *)
Theorem vllm_judge_reads_first_output (model_name : string)
    (templates : string -> option (list string) -> string -> option string -> Py.result Obj)
    (process : Obj -> Py.result Obj) (base_url key : option string) (p : Pipe)
    (question answer : string) (options : option (list string)) (gold : option string)
    (tr : trace) (prompt text score : Obj) (more : list Obj)
    (others : list (list Obj)) :
  LLM model_name 4096 50 = Ok p ->
  templates question options answer gold = Ok prompt ->
  pipe_chat p prompt {| temperature_pct := 80; top_p_pct := 95; max_tokens := 512 |} =
    Ok ((text :: more) :: others) ->
  process text = Ok score ->
  evaluate_answer (__init__ model_name templates process "vllm" base_url key)
    question answer options gold tr =
  (Ok (score, prompt, text),
   set_pipe (__init__ model_name templates process "vllm" base_url key) p
     (Some {| temperature_pct := 80; top_p_pct := 95; max_tokens := 512 |}),
   tr).
Proof.
  intros Hp Ht Hchat Hscore.
  unfold evaluate_answer, __lazy_load_client.
  cbn [backend pipe model __init__ String.eqb Ascii.eqb Bool.eqb orb].
  rewrite Hp. cbn [bind template set_pipe __init__].
  rewrite Ht. cbn [run_handler]. unfold __call_vllm.
  cbn [pipe sampling_params set_pipe]. rewrite Hchat. cbn [bind item0].
  change (process_judge_response
            (set_pipe (__init__ model_name templates process "vllm" base_url key) p
               (Some {| temperature_pct := 80; top_p_pct := 95; max_tokens := 512 |}))
            text)
    with (process text).
  now rewrite Hscore.
Qed.

(** X12: On the two local backends an error of the inference call is not
    retried: it leaves [evaluate_answer] as it is, with the pipeline kept on
    the judge and nothing added to the trace. *)
Theorem local_backend_errors_pass_through (model_name : string)
    (templates : string -> option (list string) -> string -> option string -> Py.result Obj)
    (process : Obj -> Py.result Obj) (base_url key : option string) (p : Pipe)
    (question answer : string) (options : option (list string)) (gold : option string)
    (tr : trace) (prompt : Obj) (e : Py.exn) :
  templates question options answer gold = Ok prompt ->
  (transformers_pipeline model_name 256 = Ok p ->
   pipe_call p prompt = Raise e ->
   evaluate_answer (__init__ model_name templates process "transformers" base_url key)
     question answer options gold tr =
   (Raise e,
    set_pipe (__init__ model_name templates process "transformers" base_url key) p None,
    tr))
  /\ (LLM model_name 4096 50 = Ok p ->
      pipe_chat p prompt {| temperature_pct := 80; top_p_pct := 95; max_tokens := 512 |} =
        Raise e ->
      evaluate_answer (__init__ model_name templates process "vllm" base_url key)
        question answer options gold tr =
      (Raise e,
       set_pipe (__init__ model_name templates process "vllm" base_url key) p
         (Some {| temperature_pct := 80; top_p_pct := 95; max_tokens := 512 |}),
       tr)).
Proof.
  intros Ht. split; intros Hp Hcall;
    unfold evaluate_answer, __lazy_load_client;
    cbn [backend pipe model __init__ String.eqb Ascii.eqb Bool.eqb orb];
    rewrite Hp; cbn [bind sampling_params template set_pipe __init__];
    rewrite Ht; cbn [run_handler]; unfold __call_transformers, __call_vllm;
    cbn [pipe sampling_params set_pipe]; rewrite Hcall; reflexivity.
Qed.

End Judge.

Arguments EvWarn {Obj} e.
Arguments EvSleep {Obj} seconds.

(** ** A judge over strings, for the closed statements below *)

Definition echo_template (question : string) (options : option (list string))
    (answer : string) (gold : option string) : Py.result string :=
  Ok (question ++ " / " ++ answer)%string.

Definition keep_response (response : string) : Py.result string := Ok response.

(** A service that is down for good. *)
Definition service_down (calls : nat) (c : unit) (model : string) (messages : string)
    (max_tokens n : Z) : Py.result (list string) :=
  Raise (Exception "connection refused").

(** A service that fails its first request and answers from then on. *)
Definition service_flaky (calls : nat) (c : unit) (model : string) (messages : string)
    (max_tokens n : Z) : Py.result (list string) :=
  match calls with
  | O => Raise (Exception "connection reset")
  | S _ => Ok ["8"%string]
  end.

Definition no_client (url api_key : option string) : Py.result unit := Ok tt.

Definition no_pipeline (model : string) (max_new_tokens : Z) : Py.result unit :=
  Raise (ImportError "No module named 'transformers'").

Definition no_llm (model : string) (max_model_len gpu_pct : Z) : Py.result unit :=
  Raise (ImportError "No module named 'vllm'").

Definition no_pipe_call (p : unit) (prompt : string) : Py.result (list (list string)) :=
  Ok [].

Definition no_pipe_chat (p : unit) (prompt : string) (sp : SamplingParams)
    : Py.result (list (list string)) :=
  Ok [].

Definition sample_judge (judge_backend : string) : t string unit unit :=
  __init__ unit unit "judge-model" echo_template keep_response judge_backend None None.

Lemma unrecognised_backend_echoes_prompt_witness :
  evaluate_answer no_client service_down no_pipeline no_pipe_call no_llm no_pipe_chat
    (sample_judge "llama_cpp") "2+2?" "4" None None [] =
  (Ok ("2+2? / 4", "2+2? / 4", "2+2? / 4")%string, sample_judge "llama_cpp", []).
Proof.
  refine (proj2 (@unrecognised_backend_echoes_prompt string unit unit
                   no_client service_down no_pipeline no_pipe_call no_llm no_pipe_chat
                   (sample_judge "llama_cpp") "2+2?" "4" None None []
                   "2+2? / 4"%string "2+2? / 4"%string _ _ _));
    reflexivity.
Defined.

Lemma call_api_retries_three_times_witness :
  (exists e1 e2 e3,
     __call_api service_down (set_client (sample_judge "openai") tt) "hi"%string [] =
       (Raise (Exception "Failed to get response from the API"),
        [EvCreate "judge-model" "hi"%string 512 1; EvWarn e1; EvSleep 1;
         EvCreate "judge-model" "hi"%string 512 1; EvWarn e2; EvSleep 1;
         EvCreate "judge-model" "hi"%string 512 1; EvWarn e3; EvSleep 1]))
  /\ (exists es : list Py.exn,
        length es = 1
        /\ fst (__call_api service_flaky (set_client (sample_judge "tgi") tt) "hi"%string [])
           = Ok "8"%string).
Proof.
  split.
  - destruct (proj1 (@call_api_retries_three_times string unit unit service_down
                       (set_client (sample_judge "openai") tt) "hi"%string []
                       eq_refl eq_refl))
      as (e1 & e2 & e3 & Hrun & _).
    + intros calls c. exists (Exception "connection refused"). reflexivity.
    + exists e1, e2, e3. exact Hrun.
  - destruct (proj2 (@call_api_retries_three_times string unit unit service_flaky
                       (set_client (sample_judge "tgi") tt) "hi"%string []
                       eq_refl eq_refl) 1 "8"%string)
      as (es & Hlen & Hrun & _).
    + lia.
    + intros i Hi. assert (i = 0) as -> by lia.
      exists (Exception "connection reset"). reflexivity.
    + reflexivity.
    + exists es. split; [exact Hlen |]. rewrite Hrun. reflexivity.
Defined.


(** X13: Once a backend handler has been resolved, resolving it again gives the
    same handler and leaves the judge as it is, whatever the constructors
    would do then: the client or pipeline is built once. *)
Theorem backend_client_is_built_once (Obj Client Pipe : Type)
    (OpenAI OpenAI' : option string -> option string -> Py.result Client)
    (transformers_pipeline transformers_pipeline' : string -> Z -> Py.result Pipe)
    (LLM LLM' : string -> Z -> Z -> Py.result Pipe)
    (self self' : t Obj Client Pipe) (h : handler) :
  __lazy_load_client OpenAI transformers_pipeline LLM self = Ok (h, self') ->
  __lazy_load_client OpenAI' transformers_pipeline' LLM' self' = Ok (h, self').
Proof.
  unfold __lazy_load_client.
  destruct ((backend self =? "openai") || (backend self =? "tgi"))%string eqn:Hhttp.
  { destruct (client self) as [c |] eqn:Hclient.
    - intros H. injection H as <- <-. now rewrite Hhttp, Hclient.
    - destruct (url self); destruct (OpenAI _ (api_key self)); cbn [bind];
        intros H; try discriminate; injection H as <- <-;
        cbn [backend client set_client]; now rewrite Hhttp. }
  destruct (backend self =? "transformers")%string eqn:Htransformers.
  { destruct (pipe self) as [p |] eqn:Hpipe.
    - intros H. injection H as <- <-. now rewrite Hhttp, Htransformers, Hpipe.
    - destruct (transformers_pipeline (model self) 256%Z); cbn [bind];
        intros H; try discriminate; injection H as <- <-;
        cbn [backend pipe set_pipe]; now rewrite Hhttp, Htransformers. }
  destruct (backend self =? "vllm")%string eqn:Hvllm.
  { destruct (pipe self) as [p |] eqn:Hpipe.
    - intros H. injection H as <- <-. now rewrite Hhttp, Htransformers, Hvllm, Hpipe.
    - destruct (LLM (model self) 4096%Z 50%Z); cbn [bind];
        intros H; try discriminate; injection H as <- <-;
        cbn [backend pipe set_pipe]; now rewrite Hhttp, Htransformers, Hvllm. }
  intros H. injection H as <- <-. now rewrite Hhttp, Htransformers, Hvllm.
Qed.

(** ** Local pipelines over strings *)

Definition toy_pipeline (model : string) (max_new_tokens : Z) : Py.result unit := Ok tt.

Definition toy_pipe_call (p : unit) (prompt : string) : Py.result (list (list string)) :=
  Ok [[prompt; "7"%string]].

Definition toy_llm (model : string) (max_model_len gpu_pct : Z) : Py.result unit := Ok tt.

Definition toy_pipe_chat (p : unit) (prompt : string) (sp : SamplingParams)
    : Py.result (list (list string)) :=
  Ok [["6"%string]].

Definition broken_pipe_call (p : unit) (prompt : string)
    : Py.result (list (list string)) :=
  Raise (Exception "CUDA out of memory").

Lemma backend_client_is_built_once_witness :
  __lazy_load_client no_client no_pipeline no_llm
    (set_client (sample_judge "openai") tt) =
  Ok (call_api, set_client (sample_judge "openai") tt).
Proof.
  apply (@backend_client_is_built_once string unit unit
           no_client no_client toy_pipeline no_pipeline toy_llm no_llm
           (sample_judge "openai")).
  reflexivity.
Defined.

Lemma evaluate_answer_triple_is_consistent_witness :
  echo_template "2+2?" None "4" None = Ok "2+2? / 4"%string
  /\ keep_response "2+2? / 4" = Ok "2+2? / 4"%string.
Proof.
  destruct (@evaluate_answer_triple_is_consistent string unit unit
              no_client service_down no_pipeline no_pipe_call no_llm no_pipe_chat
              (sample_judge "llama_cpp") (sample_judge "llama_cpp")
              "2+2?" "4" None None [] []
              "2+2? / 4"%string "2+2? / 4"%string "2+2? / 4"%string eq_refl)
    as (Htemplate & Hscore & _).
  split; [exact Htemplate | exact Hscore].
Defined.

Lemma unreachable_service_fails_evaluation_witness :
  exists e1 e2 e3,
    evaluate_answer no_client service_down no_pipeline no_pipe_call no_llm no_pipe_chat
      (sample_judge "tgi") "2+2?" "4" None None [] =
    (Raise (Exception "Failed to get response from the API"),
     set_client (sample_judge "tgi") tt,
     [EvCreate "judge-model" "2+2? / 4"%string 512 1; EvWarn e1; EvSleep 1;
      EvCreate "judge-model" "2+2? / 4"%string 512 1; EvWarn e2; EvSleep 1;
      EvCreate "judge-model" "2+2? / 4"%string 512 1; EvWarn e3; EvSleep 1]).
Proof.
  apply (@unreachable_service_fails_evaluation string unit unit
           no_client service_down no_pipeline no_pipe_call no_llm no_pipe_chat
           "judge-model" echo_template keep_response "tgi" None None tt
           "2+2?" "4" None None [] "2+2? / 4"%string).
  - right. reflexivity.
  - reflexivity.
  - reflexivity.
  - intros calls c'. exists (Exception "connection refused"). reflexivity.
Defined.

Lemma reachable_service_scores_answer_witness :
  evaluate_answer no_client service_flaky no_pipeline no_pipe_call no_llm no_pipe_chat
    (sample_judge "openai") "2+2?" "4" None None
    [EvCreate "judge-model" "earlier"%string 512 1] =
  (Ok ("8", "2+2? / 4", "8")%string, set_client (sample_judge "openai") tt,
   [EvCreate "judge-model" "earlier"%string 512 1;
    EvCreate "judge-model" "2+2? / 4"%string 512 1]).
Proof.
  apply (@reachable_service_scores_answer string unit unit
           no_client service_flaky no_pipeline no_pipe_call no_llm no_pipe_chat
           "judge-model" echo_template keep_response "openai" None None tt
           "2+2?" "4" None None [EvCreate "judge-model" "earlier"%string 512 1]
           "2+2? / 4"%string "8"%string "8"%string []).
  - left. reflexivity.
  - reflexivity.
  - reflexivity.
  - reflexivity.
  - reflexivity.
Defined.

Lemma transformers_judge_reads_last_message_witness :
  evaluate_answer no_client service_down toy_pipeline toy_pipe_call no_llm no_pipe_chat
    (sample_judge "transformers") "2+2?" "4" None None [] =
  (Ok ("7", "2+2? / 4", "7")%string,
   set_pipe (sample_judge "transformers") tt None, []).
Proof.
  apply (@transformers_judge_reads_last_message string unit unit
           no_client service_down toy_pipeline toy_pipe_call no_llm no_pipe_chat
           "judge-model" echo_template keep_response None None tt
           "2+2?" "4" None None [] "2+2? / 4"%string "7"%string "7"%string
           ["2+2? / 4"%string] []);
    reflexivity.
Defined.

Lemma vllm_judge_reads_first_output_witness :
  evaluate_answer no_client service_down no_pipeline no_pipe_call toy_llm toy_pipe_chat
    (sample_judge "vllm") "2+2?" "4" None None [] =
  (Ok ("6", "2+2? / 4", "6")%string,
   set_pipe (sample_judge "vllm") tt
     (Some {| temperature_pct := 80; top_p_pct := 95; max_tokens := 512 |}), []).
Proof.
  apply (@vllm_judge_reads_first_output string unit unit
           no_client service_down no_pipeline no_pipe_call toy_llm toy_pipe_chat
           "judge-model" echo_template keep_response None None tt
           "2+2?" "4" None None [] "2+2? / 4"%string "6"%string "6"%string [] []);
    reflexivity.
Defined.

Lemma local_backend_errors_pass_through_witness :
  evaluate_answer no_client service_down toy_pipeline broken_pipe_call no_llm no_pipe_chat
    (sample_judge "transformers") "2+2?" "4" None None [] =
  (Raise (Exception "CUDA out of memory"),
   set_pipe (sample_judge "transformers") tt None, []).
Proof.
  apply (proj1 (@local_backend_errors_pass_through string unit unit
                  no_client service_down toy_pipeline broken_pipe_call no_llm no_pipe_chat
                  "judge-model" echo_template keep_response None None tt
                  "2+2?" "4" None None [] "2+2? / 4"%string
                  (Exception "CUDA out of memory") eq_refl));
    reflexivity.
Defined.

End JudgeLM.

(* ================================================================== *)
(** * src/lighteval/tasks/templates/hellaswag.py *)
(* ================================================================== *)

Module Hellaswag.

Import Py.

(** The default of [dot_replacement]. *)
Definition title : str := Eval cbv in lit " [title]".

Definition default_dot_replacement : list str := [title].

Definition period_space : str := Eval cbv in lit ". ".

Definition double_space : str := Eval cbv in lit "  ".

Definition single_space : str := Eval cbv in lit " ".

(** The raw literals [r"\.+"] and [r"\."] of the last [replace]: the
    method does not read them as a pattern. *)
Definition raw_dots : str := Eval cbv in lit "\.+".

Definition raw_dot : str := Eval cbv in lit "\.".

Definition preprocess (dot_replacement : list str) (text : str) : str :=
  let text :=
    fold_left (fun text dot_repl => replace text dot_repl period_space)
      dot_replacement text in
  let text := sub_brackets text in
  let text := replace text double_space single_space in
  let text := replace text raw_dots raw_dot in
  strip text.

(** ** The prompt function

    [capitalize], [fix_ending_punct], [is_ended_sentence] and
    [fix_capitalization] come from [templates.utils.formatting_utils], the
    two spaces from the translation literals of the language, and the
    rendering of the final document from [templates.continuation]. *)

Record HellaswagInput : Type := {
  ctx_a : str;
  continuations : list str;
  gold_idx : list Z;
  instruction : option str;
  activity_label : option str;
  ctx_b : option str
}.

Record ContinuationInput : Type := {
  cont_instruction : str;
  cont_context : str;
  cont_continuations : list str;
  cont_gold_idx : list Z
}.

Section Template.

Variable Line Doc : Type.
Variable capitalize : str -> str.
Variable fix_ending_punct : str -> str.
Variable is_ended_sentence : str -> bool.
Variable fix_capitalization : str -> str -> str.
Variables sentence_space word_space : str.
Variable adapter_fn : Line -> Py.result HellaswagInput.
Variable continuation_prompt_fn : ContinuationInput -> string -> Py.result Doc.
Variable dot_replacement : list str.

(** [d.get(key, "")] *)
Definition get_or_empty (field : option str) : str :=
  match field with
  | Some v => v
  | None => []
  end.

(** Truth value of a [str]. *)
Definition truthy (text : str) : bool :=
  match text with
  | [] => false
  | _ :: _ => true
  end.

Definition process_context (ctx : str) : str :=
  match ctx with
  | [] => []
  | _ :: _ => capitalize (fix_ending_punct (preprocess dot_replacement ctx))
  end.

Definition join_ctxs (ctx_a ctx_b : str) : str :=
  let space := if is_ended_sentence ctx_a then sentence_space else word_space in
  rstrip ctx_a ++ space ++ fix_capitalization ctx_a ctx_b.

Definition hellaswag_prompt (line : Line) (task_name : string) : Py.result Doc :=
  input_data <- adapter_fn line ;;
  let label := get_or_empty (activity_label input_data) in
  let label := if truthy label then capitalize label ++ lit ":" ++ [newline] else [] in
  let a := capitalize (ctx_a input_data) in
  let b := get_or_empty (ctx_b input_data) in
  let a := if truthy b then join_ctxs (process_context a) (process_context b) else a in
  let full_context := label ++ a in
  let choices := map (preprocess dot_replacement) (continuations input_data) in
  continuation_prompt_fn
    {| cont_instruction := get_or_empty (instruction input_data);
       cont_context := full_context;
       cont_continuations := choices;
       cont_gold_idx := gold_idx input_data |}
    task_name.

End Template.

Definition idempotent (f : str -> str) : Prop := forall text, f (f text) = f text.

(** ** Bracketed fragments

    A text has no fragment left when no opening bracket is followed by a
    closing one on its line: the pattern of [sub_brackets] matches nowhere. *)
Fixpoint no_fragment (s : str) : bool :=
  match s with
  | [] => true
  | c :: r => negb ((c =? lbracket)%N && closes r) && no_fragment r
  end.

(** The three characters the pattern looks at. *)
Definition special (c : char) : bool :=
  ((c =? lbracket) || (c =? rbracket) || (c =? newline))%N.

Definition ordinary (s : str) : bool := forallb (fun c => negb (special c)) s.

Lemma starts_with_app (p s : str) :
  starts_with p s = true -> exists rest, s = p ++ rest.
Proof.
  revert s. induction p as [| a p IH]; intros s H.
  - exists s. reflexivity.
  - destruct s as [| b s]; [discriminate |].
    cbn in H. apply andb_true_iff in H as [Hab Hs].
    apply N.eqb_eq in Hab. subst b.
    destruct (IH _ Hs) as [rest ->]. exists rest. reflexivity.
Qed.

Lemma contains_unfold (p s : str) :
  contains p s =
  starts_with p s || match s with [] => false | _ :: s' => contains p s' end.
Proof. destruct s; reflexivity. Qed.

Lemma contains_occurs (p s : str) :
  contains p s = true -> exists a b, s = a ++ p ++ b.
Proof.
  induction s as [| c s IH]; rewrite contains_unfold; intros H;
    apply orb_true_iff in H as [H | H]; try discriminate.
  - apply starts_with_app in H as [rest ->]. exists [], rest. reflexivity.
  - apply starts_with_app in H as [rest ->]. exists [], rest. reflexivity.
  - destruct (IH H) as (a & b & ->). exists (c :: a), b. reflexivity.
Qed.

Lemma closes_sub_brackets (r : str) :
  closes r = false -> closes (sub_brackets_from false r) = false.
Proof.
  induction r as [| c r IH]; [reflexivity |].
  cbn [closes sub_brackets_from].
  destruct (N.eqb_spec c rbracket) as [-> | Hrb]; [discriminate |].
  destruct (N.eqb_spec c newline) as [-> | Hnl].
  - intros _. reflexivity.
  - intros Hr. rewrite Hr, andb_false_r. cbn [closes].
    destruct (N.eqb_spec c rbracket); [contradiction |].
    destruct (N.eqb_spec c newline); [contradiction |].
    now apply IH.
Qed.

Lemma no_fragment_sub_brackets (s : str) :
  forall inside, no_fragment (sub_brackets_from inside s) = true.
Proof.
  induction s as [| c s IH]; intros inside; [destruct inside; reflexivity |].
  cbn [sub_brackets_from]. destruct inside.
  - destruct (c =? rbracket)%N; apply IH.
  - destruct ((c =? lbracket)%N && closes s) eqn:Hopen; [apply IH |].
    cbn [no_fragment]. rewrite IH, andb_true_r.
    apply andb_false_iff in Hopen as [Hc | Hs].
    + now rewrite Hc.
    + now rewrite (closes_sub_brackets _ Hs), andb_false_r.
Qed.

Lemma special_cases (c : char) :
  special c = false -> c <> lbracket /\ c <> rbracket /\ c <> newline.
Proof.
  unfold special. intros H.
  apply orb_false_iff in H as [H Hnl]. apply orb_false_iff in H as [Hlb Hrb].
  repeat split; now apply N.eqb_neq.
Qed.

Lemma closes_special (s : str) : closes (filter special s) = closes s.
Proof.
  induction s as [| c s IH]; [reflexivity |].
  cbn [filter]. destruct (special c) eqn:Hc.
  - cbn [closes]. now rewrite IH.
  - apply special_cases in Hc as (_ & Hrb & Hnl). cbn [closes].
    apply N.eqb_neq in Hrb, Hnl. now rewrite Hrb, Hnl.
Qed.

Lemma no_fragment_special (s : str) :
  no_fragment (filter special s) = no_fragment s.
Proof.
  induction s as [| c s IH]; [reflexivity |].
  cbn [filter]. destruct (special c) eqn:Hc.
  - cbn [no_fragment]. now rewrite closes_special, IH.
  - apply special_cases in Hc as (Hlb & _ & _). cbn [no_fragment].
    apply N.eqb_neq in Hlb. now rewrite Hlb, IH.
Qed.

Lemma filter_special_ordinary (s : str) :
  ordinary s = true -> filter special s = [].
Proof.
  induction s as [| c s IH]; [reflexivity |].
  cbn. intros H. apply andb_true_iff in H as [Hc Hs].
  apply negb_true_iff in Hc. rewrite Hc. now apply IH.
Qed.

(** Replacing a text free of brackets and newlines by another such text
    leaves the brackets and newlines of the whole where they were. *)
Lemma replace_from_special (o : char) (old new : str) :
  ordinary (o :: old) = true -> ordinary new = true ->
  forall s skip,
    ordinary (firstn skip s) = true ->
    filter special (replace_from (o :: old) new skip s) = filter special s.
Proof.
  intros Hold Hnew. induction s as [| c s IH]; intros skip Hskip; [reflexivity |].
  cbn [replace_from]. destruct skip as [| k].
  - destruct (starts_with (o :: old) (c :: s)) eqn:Hstart.
    + apply starts_with_app in Hstart as [rest Hrest].
      injection Hrest as -> ->.
      cbn in Hold. apply andb_true_iff in Hold as [Ho Hold].
      rewrite filter_app, (filter_special_ordinary _ Hnew). cbn [app length].
      replace (S (length old) - 1) with (length old) by lia. cbn [filter].
      apply negb_true_iff in Ho. rewrite Ho.
      apply IH. rewrite firstn_app, Nat.sub_diag, firstn_all. cbn [firstn].
      now rewrite app_nil_r.
    + cbn [filter]. rewrite (IH 0) by reflexivity. reflexivity.
  - cbn in Hskip.
    apply andb_true_iff in Hskip as [Hc Hk]. apply negb_true_iff in Hc.
    cbn [filter]. rewrite Hc. now apply IH.
Qed.

Lemma replace_special (s old new : str) :
  old <> [] -> ordinary old = true -> ordinary new = true ->
  filter special (replace s old new) = filter special s.
Proof.
  intros Hne Hold Hnew. destruct old as [| o old']; [contradiction |].
  unfold replace. now apply replace_from_special.
Qed.

Lemma lstrip_suffix (s : str) : exists a, s = a ++ lstrip s.
Proof.
  induction s as [| c s [a IH]]; [exists []; reflexivity |].
  cbn [lstrip]. destruct (isspace c).
  - exists (c :: a). cbn. now rewrite <- IH.
  - exists []. reflexivity.
Qed.

Lemma rstrip_prefix (s : str) : exists b, s = rstrip s ++ b.
Proof.
  unfold rstrip. destruct (lstrip_suffix (rev s)) as [a Ha].
  exists (rev a). rewrite <- rev_app_distr, <- Ha. now rewrite rev_involutive.
Qed.

Lemma strip_infix (s : str) : exists a b, s = a ++ strip s ++ b.
Proof.
  unfold strip. destruct (lstrip_suffix s) as [a Ha].
  destruct (rstrip_prefix (lstrip s)) as [b Hb].
  exists a, b. now rewrite <- Hb.
Qed.

Lemma closes_app (x y : str) : closes x = true -> closes (x ++ y) = true.
Proof.
  induction x as [| c x IH]; [discriminate |].
  cbn [closes app]. destruct (c =? rbracket)%N; [reflexivity |].
  destruct (c =? newline)%N; [discriminate | exact IH].
Qed.

Lemma no_fragment_app (x y : str) :
  no_fragment (x ++ y) = true -> no_fragment x = true /\ no_fragment y = true.
Proof.
  induction x as [| c x IH]; [now split |].
  cbn [app no_fragment]. intros H. apply andb_true_iff in H as [Hc Hxy].
  destruct (IH Hxy) as [Hx Hy]. split; [| exact Hy].
  rewrite Hx, andb_true_r.
  destruct ((c =? lbracket)%N && closes x) eqn:Hopen; [| reflexivity].
  apply andb_true_iff in Hopen as [Hlb Hcl].
  now rewrite Hlb, (closes_app _ y Hcl) in Hc.
Qed.

Lemma no_fragment_preprocess (dot_replacement : list str) (text : str) :
  no_fragment (preprocess dot_replacement text) = true.
Proof.
  unfold preprocess.
  set (t1 := fold_left _ dot_replacement text).
  destruct (strip_infix (replace (replace (sub_brackets t1) double_space single_space)
                           raw_dots raw_dot)) as (a & b & Hstrip).
  assert (Hall : no_fragment
                   (replace (replace (sub_brackets t1) double_space single_space)
                      raw_dots raw_dot) = true).
  { rewrite <- no_fragment_special.
    rewrite !replace_special by (reflexivity || discriminate).
    rewrite no_fragment_special. apply no_fragment_sub_brackets. }
  rewrite Hstrip in Hall.
  apply no_fragment_app in Hall as [_ Hall].
  now apply no_fragment_app in Hall as [Hall _].
Qed.


(** ** Text around a placeholder

    [plain] text gives the later steps nothing to do: it has no opening
    bracket, no backslash and no two spaces in a row. *)
Fixpoint single_spaced (s : str) : bool :=
  match s with
  | [] => true
  | c :: r =>
      negb ((c =? space)%N && match r with d :: _ => (d =? space)%N | [] => false end)
      && single_spaced r
  end.

Definition plain (s : str) : bool :=
  forallb (fun c => negb ((c =? lbracket) || (c =? backslash))%N) s && single_spaced s.

Lemma plain_inv (s : str) :
  plain s = true ->
  ~ In lbracket s /\ ~ In backslash s /\ single_spaced s = true.
Proof.
  unfold plain. intros H. apply andb_true_iff in H as [Hc Hs].
  rewrite forallb_forall in Hc.
  repeat split; trivial; intros Hin; apply Hc in Hin; discriminate.
Qed.





Lemma replace_from_absent (x o : char) (old new s : str) :
  In x (o :: old) -> ~ In x s -> replace_from (o :: old) new 0 s = s.
Proof.
  intros Hx. induction s as [| c s IH]; intros Hs; [reflexivity |].
  cbn [replace_from].
  destruct (starts_with (o :: old) (c :: s)) eqn:Hstart.
  - apply starts_with_app in Hstart as [rest Hrest].
    exfalso. apply Hs. rewrite Hrest. apply in_or_app. now left.
  - f_equal. apply IH. intros Hin. apply Hs. now right.
Qed.


Lemma sub_brackets_plain (s : str) : ~ In lbracket s -> sub_brackets s = s.
Proof.
  unfold sub_brackets. induction s as [| c s IH]; intros Hs; [reflexivity |].
  cbn [sub_brackets_from].
  destruct (N.eqb_spec c lbracket) as [-> | _]; [exfalso; apply Hs; now left |].
  cbn [andb]. f_equal. apply IH. intros Hin. apply Hs. now right.
Qed.

Lemma starts_with_double_space (c : char) (r : str) :
  starts_with double_space (c :: r) =
  (c =? space)%N && match r with d :: _ => (d =? space)%N | [] => false end.
Proof.
  unfold double_space, space. cbn [starts_with].
  rewrite (N.eqb_sym 32 c).
  destruct r as [| d r']; [reflexivity |].
  now rewrite (N.eqb_sym 32 d), andb_true_r.
Qed.

Lemma replace_double_plain (s : str) :
  single_spaced s = true -> replace_from double_space single_space 0 s = s.
Proof.
  induction s as [| c s IH]; [reflexivity |].
  cbn [single_spaced]. intros H. apply andb_true_iff in H as [Hc Hs].
  cbn [replace_from]. rewrite starts_with_double_space.
  apply negb_true_iff in Hc. rewrite Hc. f_equal. now apply IH.
Qed.

Lemma single_spaced_snoc (x : str) (d : char) :
  single_spaced x = true -> d <> space -> single_spaced (x ++ [d]) = true.
Proof.
  intros Hx Hd. apply N.eqb_neq in Hd.
  induction x as [| a x IH]; [cbn; now rewrite Hd |].
  cbn [single_spaced] in Hx. apply andb_true_iff in Hx as [Ha Hx].
  cbn [app single_spaced]. rewrite (IH Hx), andb_true_r.
  destruct x as [| b x']; [cbn [app]; now rewrite Hd, andb_false_r | exact Ha].
Qed.

Lemma replace_double_after (x y : str) (d : char) :
  single_spaced (x ++ [d]) = true -> d <> space ->
  replace_from double_space single_space 0 ((x ++ [d]) ++ y) =
  (x ++ [d]) ++ replace_from double_space single_space 0 y.
Proof.
  intros Hx Hd. apply N.eqb_neq in Hd.
  induction x as [| a x IH].
  - cbn [app replace_from]. now rewrite starts_with_double_space, Hd.
  - cbn [app single_spaced] in Hx. apply andb_true_iff in Hx as [Ha Hx].
    cbn [app replace_from]. rewrite starts_with_double_space.
    apply negb_true_iff in Ha.
    assert (Hnext : match (x ++ [d]) ++ y with
                    | e :: _ => (e =? space)%N
                    | [] => false
                    end =
                    match x ++ [d] with
                    | e :: _ => (e =? space)%N
                    | [] => false
                    end) by (destruct x; reflexivity).
    rewrite Hnext, Ha. f_equal. now apply IH.
Qed.






(** Why the pieces around a placeholder must have no opening bracket: a
    placeholder inside a bracketed fragment goes with the fragment, and no
    period is written for it. *)
Lemma title_inside_brackets_is_dropped :
  contains title (lit "x [a [title] b] y") = true
  /\ preprocess default_dot_replacement (lit "x [a [title] b] y") = lit "x y".
Proof. split; vm_compute; reflexivity. Qed.

(** ** Any number of placeholders *)















(** C10: [preprocess] is not idempotent.  Four spaces in a row come out as
    two, and so do the three spaces left by two bracketed fragments; a second
    pass collapses them to one. *)
Theorem preprocess_not_idempotent :
  (preprocess default_dot_replacement (lit "a    b") = lit "a  b"
   /\ contains double_space (preprocess default_dot_replacement (lit "a    b")) = true
   /\ preprocess default_dot_replacement
        (preprocess default_dot_replacement (lit "a    b")) = lit "a b")
  /\ (preprocess default_dot_replacement (lit "a [x] [y] b") = lit "a  b"
      /\ contains double_space
           (preprocess default_dot_replacement (lit "a [x] [y] b")) = true
      /\ preprocess default_dot_replacement
           (preprocess default_dot_replacement (lit "a [x] [y] b")) = lit "a b")
  /\ ~ idempotent (preprocess default_dot_replacement).
Proof.
  repeat split; try (vm_compute; reflexivity).
  intros Hidem. specialize (Hidem (lit "a    b")).
  vm_compute in Hidem. discriminate.
Qed.

(** ** Further properties of the cleanup *)

Lemma lstrip_head (s rest : str) (c : char) :
  lstrip s = c :: rest -> isspace c = false.
Proof.
  induction s as [| a s IH]; [discriminate |].
  cbn [lstrip]. destruct (isspace a) eqn:Ha; [exact IH |].
  intros H. now injection H as <- _.
Qed.

Lemma lstrip_fixed (s : str) :
  match s with [] => True | c :: _ => isspace c = false end -> lstrip s = s.
Proof. destruct s as [| c s]; [reflexivity |]. cbn [lstrip]. now intros ->. Qed.

Lemma strip_ends (s : str) :
  (forall c rest, strip s = c :: rest -> isspace c = false)
  /\ (forall front c, strip s = front ++ [c] -> isspace c = false).
Proof.
  unfold strip. split.
  - intros c rest H.
    destruct (rstrip_prefix (lstrip s)) as [b Hb]. rewrite H in Hb.
    exact (lstrip_head _ Hb).
  - unfold rstrip. intros front c H.
    apply (f_equal (@rev char)) in H.
    rewrite rev_involutive, rev_app_distr in H. cbn [rev app] in H.
    exact (lstrip_head _ H).
Qed.

(** X14: The cleaned text neither starts nor ends with white space, whatever the
    text and the placeholder list. *)
Theorem preprocess_is_trimmed (dot_replacement : list str) (text : str) :
  (forall c rest, preprocess dot_replacement text = c :: rest -> isspace c = false)
  /\ (forall front c,
        preprocess dot_replacement text = front ++ [c] -> isspace c = false).
Proof. unfold preprocess. apply strip_ends. Qed.

Lemma closes_on_line (w rest : str) :
  forallb (fun c => negb (c =? newline)%N) w = true ->
  closes (w ++ rbracket :: rest) = true.
Proof.
  induction w as [| c w IH]; [reflexivity |].
  cbn [forallb app closes]. intros H. apply andb_true_iff in H as [Hc Hw].
  destruct (c =? rbracket)%N; [reflexivity |].
  apply negb_true_iff in Hc. rewrite Hc. now apply IH.
Qed.

(** X15: No bracketed fragment survives the cleanup: an opening bracket, any
    text without a newline and a closing bracket occur nowhere in the
    cleaned text, whatever the text and the placeholder list. *)
Theorem preprocess_leaves_no_fragment (dot_replacement : list str) (text w : str) :
  forallb (fun c => negb (c =? newline)%N) w = true ->
  contains (lbracket :: w ++ [rbracket]) (preprocess dot_replacement text) = false.
Proof.
  intros Hw.
  destruct (contains (lbracket :: w ++ [rbracket]) (preprocess dot_replacement text))
    eqn:Hin; [| reflexivity].
  apply contains_occurs in Hin as (a & b & Hab).
  pose proof (no_fragment_preprocess dot_replacement text) as Hclean.
  rewrite Hab in Hclean. apply no_fragment_app in Hclean as [_ Hclean].
  cbn [app no_fragment] in Hclean.
  rewrite <- app_assoc in Hclean. cbn [app] in Hclean.
  rewrite (closes_on_line w b Hw) in Hclean. discriminate.
Qed.

Lemma fold_replace_absent (x : char) (new : str) (dot_replacement : list str) :
  Forall (fun d => In x d) dot_replacement ->
  forall text,
    ~ In x text ->
    fold_left (fun text dot_repl => replace text dot_repl new) dot_replacement text = text.
Proof.
  induction 1 as [| d dots Hd Hdots IH]; intros text Htext; [reflexivity |].
  cbn [fold_left].
  assert (Hsame : replace text d new = text).
  { destruct d as [| o d']; [contradiction |].
    unfold replace. now apply (@replace_from_absent x). }
  rewrite Hsame. now apply IH.
Qed.

(** X16: Text with no opening bracket, no backslash and no doubled space is only
    trimmed, for every placeholder list whose entries hold an opening
    bracket, as the default and the Turkish list do. *)
Theorem preprocess_trims_plain_text (dot_replacement : list str) (text : str) :
  Forall (fun d => In lbracket d) dot_replacement ->
  plain text = true ->
  preprocess dot_replacement text = strip text.
Proof.
  intros Hdots Hplain.
  apply plain_inv in Hplain as (Hlb & Hbs & Hsp).
  unfold preprocess.
  rewrite (@fold_replace_absent lbracket period_space dot_replacement Hdots text Hlb).
  rewrite (sub_brackets_plain _ Hlb).
  change (replace text double_space single_space)
    with (replace_from double_space single_space 0 text).
  rewrite (replace_double_plain _ Hsp).
  change (replace text raw_dots raw_dot) with (replace_from raw_dots raw_dot 0 text).
  unfold raw_dots.
  rewrite (@replace_from_absent backslash); [reflexivity | now left | exact Hbs].
Qed.

Lemma replace_from_length (o : char) (old new : str) :
  length new <= S (length old) ->
  forall s skip,
    length (replace_from (o :: old) new skip s) + Nat.min skip (length s) <= length s.
Proof.
  intros Hnew. induction s as [| c s IH]; intros skip.
  - cbn. rewrite Nat.min_0_r. lia.
  - cbn [replace_from]. destruct skip as [| k].
    + destruct (starts_with (o :: old) (c :: s)) eqn:Hstart.
      * apply starts_with_app in Hstart as [rest Hrest].
        injection Hrest as _ ->.
        specialize (IH (length (o :: old) - 1)).
        unfold str, char in *. rewrite ?length_app in IH. rewrite ?length_app.
        cbn [length] in *. pose proof (length_app old rest). lia.
      * specialize (IH 0). cbn [length] in *. lia.
    + specialize (IH k). cbn [length]. lia.
Qed.

Lemma replace_length (s old new : str) :
  old <> [] -> length new <= length old -> length (replace s old new) <= length s.
Proof.
  intros Hne Hnew. destruct old as [| o old]; [contradiction |].
  unfold replace. cbn [length] in Hnew.
  pose proof (@replace_from_length o old new Hnew s 0). lia.
Qed.

Lemma sub_brackets_from_length (s : str) :
  forall inside, length (sub_brackets_from inside s) <= length s.
Proof.
  induction s as [| c s IH]; intros inside; [destruct inside; cbn; lia |].
  cbn [sub_brackets_from]. destruct inside.
  - destruct (c =? rbracket)%N; [specialize (IH false) | specialize (IH true)];
      cbn [length]; lia.
  - destruct ((c =? lbracket)%N && closes s);
      [specialize (IH true) | specialize (IH false)]; cbn [length]; lia.
Qed.

Lemma lstrip_length (s : str) : length (lstrip s) <= length s.
Proof.
  induction s as [| c s IH]; [cbn; lia |].
  cbn [lstrip]. destruct (isspace c); cbn [length]; lia.
Qed.

Lemma strip_length (s : str) : length (strip s) <= length s.
Proof.
  unfold strip, rstrip. rewrite length_rev.
  pose proof (lstrip_length (rev (lstrip s))) as H1. rewrite length_rev in H1.
  pose proof (lstrip_length s). lia.
Qed.

Lemma fold_replace_length (new : str) (dot_replacement : list str) :
  Forall (fun d => d <> [] /\ length new <= length d) dot_replacement ->
  forall text,
    length (fold_left (fun text dot_repl => replace text dot_repl new)
              dot_replacement text) <= length text.
Proof.
  induction 1 as [| d dots [Hne Hd] Hdots IH]; intros text; [cbn; lia |].
  cbn [fold_left]. pose proof (@replace_length text d new Hne Hd).
  specialize (IH (replace text d new)). lia.
Qed.

(** X17: With placeholders of two characters or more, as in the default and the
    Turkish list, the cleanup never makes a text longer. *)
Theorem preprocess_never_lengthens (dot_replacement : list str) (text : str) :
  Forall (fun d => 2 <= length d) dot_replacement ->
  length (preprocess dot_replacement text) <= length text.
Proof.
  intros Hdots. unfold preprocess.
  assert (Hfold : length (fold_left (fun text dot_repl =>
                                       replace text dot_repl period_space)
                            dot_replacement text) <= length text).
  { apply fold_replace_length. apply Forall_impl with (2 := Hdots).
    intros d Hd. split; [| exact Hd]. intros ->. cbn in Hd. lia. }
  set (t1 := fold_left _ dot_replacement text) in *.
  pose proof (sub_brackets_from_length t1 false) as Hsub. fold (sub_brackets t1) in Hsub.
  assert (Hdouble : length (replace (sub_brackets t1) double_space single_space)
                    <= length (sub_brackets t1))
    by (apply replace_length; [discriminate | cbn; lia]).
  assert (Hraw : length (replace (replace (sub_brackets t1) double_space single_space)
                           raw_dots raw_dot)
                 <= length (replace (sub_brackets t1) double_space single_space))
    by (apply replace_length; [discriminate | cbn; lia]).
  pose proof (strip_length
                (replace (replace (sub_brackets t1) double_space single_space)
                   raw_dots raw_dot)).
  lia.
Qed.

Lemma strip_idempotent (s : str) : strip (strip s) = strip s.
Proof.
  destruct (strip_ends s) as [Hfirst Hlast].
  assert (Hl : lstrip (strip s) = strip s).
  { apply lstrip_fixed. destruct (strip s) as [| c rest] eqn:Hs; [exact I |].
    exact (Hfirst c rest eq_refl). }
  unfold strip at 1. rewrite Hl. unfold rstrip.
  destruct (rev (strip s)) as [| c r] eqn:Hrev.
  - apply (f_equal (@rev char)) in Hrev. rewrite rev_involutive in Hrev.
    now rewrite Hrev.
  - apply (f_equal (@rev char)) in Hrev. rewrite rev_involutive in Hrev.
    cbn [rev] in Hrev. rewrite (lstrip_fixed (c :: r) (Hlast _ _ Hrev)).
    cbn [rev]. now rewrite Hrev.
Qed.

Lemma contains_app_r (p a b : str) :
  contains p b = true -> contains p (a ++ b) = true.
Proof.
  intros Hb. induction a as [| x a IH]; [exact Hb |].
  cbn [app]. rewrite contains_unfold, IH. apply orb_true_r.
Qed.

Section PromptFacts.

Variable Line Doc : Type.
Variable capitalize : str -> str.
Variable fix_ending_punct : str -> str.
Variable is_ended_sentence : str -> bool.
Variable fix_capitalization : str -> str -> str.
Variables sentence_space word_space : str.
Variable adapter_fn : Line -> Py.result HellaswagInput.
Variable continuation_prompt_fn : ContinuationInput -> string -> Py.result Doc.
Variable dot_replacement : list str.

(** X18: For a row its adapter accepts, [hellaswag_prompt] calls the
    continuation prompt function with as many choices as the row has
    continuations, each of them free of bracketed fragments and of white
    space at its ends, with the gold indices as they came and the
    instruction defaulting to the empty text; an error of the adapter is
    passed on as it is. *)
Theorem hellaswag_prompt_hands_on_clean_choices (line : Line) (task_name : string) :
  (forall input,
     adapter_fn line = Ok input ->
     exists arg,
       hellaswag_prompt capitalize fix_ending_punct is_ended_sentence fix_capitalization
         sentence_space word_space adapter_fn continuation_prompt_fn dot_replacement
         line task_name = continuation_prompt_fn arg task_name
       /\ cont_gold_idx arg = gold_idx input
       /\ cont_instruction arg = get_or_empty (instruction input)
       /\ length (cont_continuations arg) = length (continuations input)
       /\ Forall (fun choice => no_fragment choice = true /\ strip choice = choice)
            (cont_continuations arg))
  /\ (forall e,
        adapter_fn line = Raise e ->
        hellaswag_prompt capitalize fix_ending_punct is_ended_sentence fix_capitalization
          sentence_space word_space adapter_fn continuation_prompt_fn dot_replacement
          line task_name = Raise e).
Proof.
  split.
  - intros input Hinput. unfold hellaswag_prompt. rewrite Hinput. cbn [bind].
    eexists. split; [reflexivity |]. cbn [cont_gold_idx cont_instruction cont_continuations].
    split; [reflexivity |]. split; [reflexivity |]. split; [apply length_map |].
    apply Forall_forall. intros choice Hin.
    apply in_map_iff in Hin as (raw & <- & _). split.
    + apply no_fragment_preprocess.
    + unfold preprocess. apply strip_idempotent.
  - intros e He. unfold hellaswag_prompt. now rewrite He.
Qed.

(** X19: A row without a second context gets no cleanup of its first context:
    when [capitalize] keeps a placeholder that is there, a [" [title]"] in
    [ctx_a] reaches the context handed to the continuation prompt
    function. *)
Theorem hellaswag_prompt_keeps_title_without_ctx_b
    (line : Line) (task_name : string) (input : HellaswagInput) :
  adapter_fn line = Ok input ->
  get_or_empty (ctx_b input) = [] ->
  (forall text, contains title text = true -> contains title (capitalize text) = true) ->
  contains title (ctx_a input) = true ->
  exists arg,
    hellaswag_prompt capitalize fix_ending_punct is_ended_sentence fix_capitalization
      sentence_space word_space adapter_fn continuation_prompt_fn dot_replacement
      line task_name = continuation_prompt_fn arg task_name
    /\ contains title (cont_context arg) = true.
Proof.
  intros Hinput Hb Hcap Htitle. unfold hellaswag_prompt. rewrite Hinput. cbn [bind].
  eexists. split; [reflexivity |]. cbn [cont_context]. rewrite Hb. cbn [truthy].
  apply contains_app_r. now apply Hcap.
Qed.

End PromptFacts.

(** ** A row reader over pairs of contexts, for the closed statements *)

Definition sample_adapter (line : str * str) : Py.result HellaswagInput :=
  Ok {| ctx_a := fst line;
        continuations := [lit " stir [step] well "; lit "serve"];
        gold_idx := [1%Z];
        instruction := None;
        activity_label := None;
        ctx_b := match snd line with [] => None | _ => Some (snd line) end |}.

Definition as_is (text : str) : str := text.

Definition keep_second (first second : str) : str := second.

Definition never_ended (text : str) : bool := false.

Definition hand_back (arg : ContinuationInput) (task_name : string)
    : Py.result ContinuationInput :=
  Ok arg.

Lemma preprocess_is_trimmed_witness :
  isspace 97%N = false.
Proof.
  exact (proj1 (preprocess_is_trimmed default_dot_replacement (lit "  a [title] b "))
           97%N (lit ". b") eq_refl).
Defined.

Lemma preprocess_leaves_no_fragment_witness :
  contains (lbracket :: lit "header" ++ [rbracket])
    (preprocess default_dot_replacement (lit "a [header] b")) = false.
Proof.
  apply preprocess_leaves_no_fragment. reflexivity.
Defined.

Lemma preprocess_trims_plain_text_witness :
  preprocess default_dot_replacement (lit " boil the water ") = strip (lit " boil the water ").
Proof.
  apply preprocess_trims_plain_text.
  - constructor; [right; left; reflexivity | constructor].
  - reflexivity.
Defined.

Lemma preprocess_never_lengthens_witness :
  length (preprocess default_dot_replacement (lit "a [title] b")) <= length (lit "a [title] b").
Proof.
  apply preprocess_never_lengthens. constructor; [cbn; lia | constructor].
Defined.

Lemma hellaswag_prompt_hands_on_clean_choices_witness :
  exists arg,
    hellaswag_prompt as_is as_is never_ended keep_second single_space single_space
      sample_adapter hand_back default_dot_replacement (lit "a", lit "b") "task" = Ok arg
    /\ length (cont_continuations arg) = 2.
Proof.
  destruct (proj1 (hellaswag_prompt_hands_on_clean_choices as_is as_is never_ended
                     keep_second single_space single_space sample_adapter hand_back
                     default_dot_replacement (lit "a", lit "b") "task") _ eq_refl)
    as (arg & Hrun & _ & _ & Hlen & _).
  exists arg. split; [exact Hrun | exact Hlen].
Defined.

Lemma hellaswag_prompt_keeps_title_without_ctx_b_witness :
  exists arg,
    hellaswag_prompt as_is as_is never_ended keep_second single_space single_space
      sample_adapter hand_back default_dot_replacement (lit "cook [title] rice", [])
      "task" = Ok arg
    /\ contains title (cont_context arg) = true.
Proof.
  apply (@hellaswag_prompt_keeps_title_without_ctx_b _ _ as_is as_is never_ended
           keep_second single_space single_space sample_adapter hand_back
           default_dot_replacement (lit "cook [title] rice", []) "task"
           {| ctx_a := lit "cook [title] rice";
              continuations := [lit " stir [step] well "; lit "serve"];
              gold_idx := [1%Z]; instruction := None; activity_label := None;
              ctx_b := None |});
    try reflexivity.
  intros text Htext. exact Htext.
Defined.

Lemma starts_with_self (p rest : str) : starts_with p (p ++ rest) = true.
Proof.
  induction p as [| a p IH]; [reflexivity |].
  cbn [app starts_with]. now rewrite N.eqb_refl, IH.
Qed.

Lemma occurs_contains (p a b : str) : contains p (a ++ p ++ b) = true.
Proof.
  apply contains_app_r. rewrite contains_unfold, starts_with_self. reflexivity.
Qed.

Lemma no_fragment_excludes (s w lead : str) :
  no_fragment s = true ->
  forallb (fun c => negb (c =? newline)%N) w = true ->
  contains (lead ++ lbracket :: w ++ [rbracket]) s = false.
Proof.
  intros Hs Hw.
  destruct (contains (lead ++ lbracket :: w ++ [rbracket]) s) eqn:Hin; [| reflexivity].
  apply contains_occurs in Hin as (a & b & ->).
  apply no_fragment_app in Hs as [_ Hs].
  rewrite <- app_assoc in Hs. apply no_fragment_app in Hs as [_ Hs].
  cbn [app no_fragment] in Hs.
  rewrite <- app_assoc in Hs. cbn [app] in Hs.
  rewrite (closes_on_line w b Hw) in Hs. discriminate.
Qed.

End Hellaswag.

(* ================================================================== *)
(** * src/lighteval/tasks/multilingual/tasks.py *)
(* ================================================================== *)

Module Multilingual.

Import Py.

(** ** Dataset rows *)

(** What a row and its fields can hold. *)
#[local] Unset Elimination Schemes.

Inductive obj : Type :=
| VNone
| VInt (z : Z)
| VStr (s : string)
| VList (items : list obj)
| VDict (fields : list (string * obj)).

#[local] Set Elimination Schemes.

(** The constants the catalog compares labels with. *)
Inductive scalar : Type :=
| SInt (z : Z)
| SStr (s : string).

(** [v == k] *)
Definition equals (v : obj) (k : scalar) : bool :=
  match v, k with
  | VInt z, SInt z' => (z =? z')%Z
  | VStr s, SStr s' => (s =? s')%string
  | _, _ => false
  end.

(** [v in [k1, k2, ...]] *)
Definition py_in (v : obj) (ks : list scalar) : bool := existsb (equals v) ks.

(** [n in [k1, k2, ...]] for an [int] *)
Definition int_in (n : Z) (ks : list Z) : bool := existsb (Z.eqb n) ks.

Fixpoint lookup (key : string) (fields : list (string * obj)) : option obj :=
  match fields with
  | [] => None
  | (k, v) :: rest => if (k =? key)%string then Some v else lookup key rest
  end.

(** [v[key]] with a string key *)
Definition getitem (v : obj) (key : string) : Py.result obj :=
  match v with
  | VDict fields =>
      match lookup key fields with
      | Some x => Ok x
      | None => Raise KeyError
      end
  | VNone => Raise (TypeError "'NoneType' object is not subscriptable")
  | VInt _ => Raise (TypeError "'int' object is not subscriptable")
  | VStr _ => Raise (TypeError "string indices must be integers")
  | VList _ => Raise (TypeError "list indices must be integers or slices, not str")
  end.

(** [{k1: g1, k2: g2}[v]], a dict display indexed by a label *)
Fixpoint display_get (entries : list (scalar * Z)) (v : obj) : Py.result Z :=
  match entries with
  | [] => Raise KeyError
  | (k, g) :: rest => if equals v k then Ok g else display_get rest v
  end.

Definition hashable (v : obj) : bool :=
  match v with
  | VList _ | VDict _ => false
  | _ => true
  end.

Definition display_getitem (entries : list (scalar * Z)) (v : obj) : Py.result Z :=
  if hashable v then display_get entries v
  else Raise (TypeError "unhashable type").

(** Truth value of an object; [a or b]. *)
Definition truth (v : obj) : bool :=
  match v with
  | VNone => false
  | VInt z => negb (z =? 0)%Z
  | VStr s => negb (s =? "")%string
  | VList items => match items with [] => false | _ => true end
  | VDict fields => match fields with [] => false | _ => true end
  end.

Definition py_or (a b : obj) : obj := if truth a then a else b.

(** ** The catalog's vocabulary *)

(** The members of [lighteval.utils.language.Language] the catalog names. *)
Inductive Language : Type :=
| ARABIC | ARMENIAN | ASSAMESE | BASQUE | BENGALI | BULGARIAN | CATALAN
| CHINESE | CROATIAN | DANISH | DUTCH | ENGLISH | ESTONIAN | FRENCH | GERMAN
| GREEK | GUJARATI | HINDI | HUNGARIAN | ICELANDIC | INDONESIAN | ITALIAN
| JAPANESE | KANNADA | KOREAN | MALAYALAM | MARATHI | NEPALI | NORWEGIAN
| ORIYA | PORTUGUESE | PUNJABI | ROMANIAN | RUSSIAN | SANSKRIT | SERBIAN
| SINDHI | SLOVAK | SPANISH | SWAHILI | SWEDISH | TAMIL | TELUGU | THAI
| TURKISH | UKRAINIAN | URDU | VIETNAMESE.

Scheme Equality for Language.

Inductive Formulation : Type :=
| MCFFormulation
| CFFormulation
| HybridFormulation.

Inductive Normalization : Type :=
| LogProbTokenNorm.

Inductive Metric : Type :=
| loglikelihood_acc_metric (normalization : Normalization).

(** What the adapters hand to the templates. *)
Record NLIInput : Type := {
  premise : obj;
  hypothesis : obj;
  nli_gold_idx : Z
}.

Record COPAInput : Type := {
  context : obj;
  cause_effect : obj;
  copa_continuations : list obj;
  copa_gold_idx : Z
}.

Record HellaswagRow : Type := {
  row_ctx_a : obj;
  row_ctx_b : obj;
  row_continuations : obj;
  row_gold_idx : Z
}.

(** A prompt function is kept as the call that builds it. *)
Inductive PromptFunction : Type :=
| get_nli_prompt_function (language : Language) (adapter : obj -> Py.result NLIInput)
    (relations : list string) (formulation : Formulation)
| get_copa_prompt_function (language : Language) (adapter : obj -> Py.result COPAInput)
    (formulation : Formulation)
| get_hellaswag_prompt_function (language : Language)
    (adapter : obj -> Py.result HellaswagRow) (formulation : Formulation)
    (dot_replacement : option (list str)).

(** The keyword arguments of [LightevalTaskConfig]; [None] is an argument
    the call leaves to the default of the class. *)
Record LightevalTaskConfig : Type := {
  name : string;
  suite : list string;
  metric : list Metric;
  prompt_function : PromptFunction;
  hf_filter : option (obj -> Py.result bool);
  hf_repo : string;
  hf_subset : string;
  hf_revision : option string;
  evaluation_splits : list string;
  few_shots_split : option string;
  few_shots_select : option (option string);
  generation_size : option Z;
  trust_dataset : option bool
}.

Definition task_language (task : LightevalTaskConfig) : Language :=
  match prompt_function task with
  | get_nli_prompt_function language _ _ _ => language
  | get_copa_prompt_function language _ _ => language
  | get_hellaswag_prompt_function language _ _ _ => language
  end.

Definition formulations : list Formulation :=
  [MCFFormulation; CFFormulation; HybridFormulation].

Definition nli_relations : list string := ["entailment"; "contradiction"]%string.

Definition acc_token_norm : list Metric := [loglikelihood_acc_metric LogProbTokenNorm].

Section Catalog.

(** [Language.value] and [Formulation.name] are declared outside this file;
    [lower] is [str.lower], [standardize_tag] and [language_name] come from
    langcodes, [int_of_str] is [int] on a string. *)
Variable value : Language -> string.
Variable formulation_name : Formulation -> string.
Variable lower : string -> string.
Variable standardize_tag : string -> string.
Variable language_name : string -> string.
Variable int_of_str : string -> Py.result Z.

(** [int(v)] *)
Definition int (v : obj) : Py.result Z :=
  match v with
  | VInt z => Ok z
  | VStr s => int_of_str s
  | _ => Raise (TypeError "int() argument must be a string or a real number")
  end.

(** [f"{family}_{language.value}_{formulation.name.lower()}"] *)
Definition task_name (family : string) (language : Language) (formulation : Formulation)
    : string :=
  (family ++ "_" ++ value language ++ "_" ++ lower (formulation_name formulation))%string.

(** [[task(language, formulation) for language in languages
      for formulation in formulations]] *)
Definition for_each (languages : list Language)
    (task : Language -> Formulation -> LightevalTaskConfig) : list LightevalTaskConfig :=
  flat_map (fun language => map (task language) formulations) languages.

(** *** NLI *)

Definition xnli_adapter (line : obj) : Py.result NLIInput :=
  p <- getitem line "premise" ;;
  h <- getitem line "hypothesis" ;;
  label <- getitem line "label" ;;
  g <- display_getitem [(SInt 0, 0%Z); (SInt 2, 1%Z)] label ;;
  Ok {| premise := p; hypothesis := h; nli_gold_idx := g |}.

Definition xnli_filter (line : obj) : Py.result bool :=
  label <- getitem line "label" ;;
  Ok (py_in label [SInt 0; SInt 2]).

Definition xnli_languages : list Language :=
  [ARABIC; ENGLISH; FRENCH; SPANISH; BULGARIAN; GERMAN; GREEK; ENGLISH; FRENCH;
   HINDI; RUSSIAN; SWAHILI; THAI; TURKISH; URDU; VIETNAMESE; CHINESE].

Definition xnli_task (language : Language) (formulation : Formulation)
    : LightevalTaskConfig :=
  {| name := task_name "xnli" language formulation;
     suite := ["custom"%string];
     metric := acc_token_norm;
     prompt_function :=
       get_nli_prompt_function language xnli_adapter nli_relations formulation;
     hf_filter := Some xnli_filter;
     hf_repo := "facebook/xnli";
     hf_subset := standardize_tag (value language);
     hf_revision := None;
     evaluation_splits := ["validation"%string];
     few_shots_split := Some "train"%string;
     few_shots_select := None;
     generation_size := None;
     trust_dataset := None |}.

Definition xnli_tasks : list LightevalTaskConfig := for_each xnli_languages xnli_task.

Definition xnli2_languages : list Language :=
  [ENGLISH; FRENCH; PUNJABI; GUJARATI; KANNADA; ASSAMESE; BENGALI; MARATHI;
   SANSKRIT; TAMIL; GERMAN; ENGLISH; URDU; VIETNAMESE; TURKISH; THAI; SWAHILI;
   SPANISH; RUSSIAN; HINDI; GREEK; CHINESE; BULGARIAN; ARABIC].

Definition xnli2_task (language : Language) (formulation : Formulation)
    : LightevalTaskConfig :=
  {| name := task_name "xnli2.0" language formulation;
     suite := ["custom"%string];
     metric := acc_token_norm;
     prompt_function :=
       get_nli_prompt_function language xnli_adapter nli_relations formulation;
     hf_filter := Some xnli_filter;
     hf_repo :=
       ("Harsit/xnli2.0_train_"
          ++ lower (language_name (standardize_tag (value language))))%string;
     hf_subset := "default";
     hf_revision := None;
     evaluation_splits := ["train"%string];
     few_shots_split := None;
     few_shots_select := None;
     generation_size := None;
     trust_dataset := None |}.

Definition xnli2_tasks : list LightevalTaskConfig := for_each xnli2_languages xnli2_task.

Definition xnli_indic_filter (x : obj) : Py.result bool :=
  label <- getitem x "label" ;;
  n <- int label ;;
  Ok (int_in n [0; 2]%Z).

Definition xnli_indic_languages : list Language :=
  [ASSAMESE; BENGALI; GUJARATI; HINDI; KANNADA; MALAYALAM; MARATHI; ORIYA;
   PUNJABI; TAMIL; TELUGU].

Definition xnli_indic_task (language : Language) (formulation : Formulation)
    : LightevalTaskConfig :=
  {| name := task_name "indicnxnli" language formulation;
     suite := ["custom"%string];
     metric := acc_token_norm;
     prompt_function :=
       get_nli_prompt_function language xnli_adapter nli_relations formulation;
     hf_filter := Some xnli_indic_filter;
     hf_repo := "Divyanshu/indicxnli";
     hf_subset := standardize_tag (value language);
     hf_revision := None;
     evaluation_splits := ["validation"%string];
     few_shots_split := Some "train"%string;
     few_shots_select := Some None;
     generation_size := Some (-1)%Z;
     trust_dataset := None |}.

Definition xnli_indic_tasks : list LightevalTaskConfig :=
  for_each xnli_indic_languages xnli_indic_task.

Definition paws_x_adapter (line : obj) : Py.result NLIInput :=
  p <- getitem line "sentence1" ;;
  h <- getitem line "sentence2" ;;
  label <- getitem line "label" ;;
  g <- int label ;;
  Ok {| premise := p; hypothesis := h; nli_gold_idx := g |}.

Definition paws_x_languages : list Language :=
  [GERMAN; ENGLISH; SPANISH; FRENCH; JAPANESE; KOREAN; CHINESE].

Definition paws_x_task (language : Language) (formulation : Formulation)
    : LightevalTaskConfig :=
  {| name := task_name "pawsx" language formulation;
     suite := ["custom"%string];
     metric := acc_token_norm;
     prompt_function :=
       get_nli_prompt_function language paws_x_adapter nli_relations formulation;
     hf_filter := None;
     hf_repo := "google-research-datasets/paws-x";
     hf_subset := standardize_tag (value language);
     hf_revision := None;
     evaluation_splits := ["test"%string];
     few_shots_split := Some "train"%string;
     few_shots_select := None;
     generation_size := None;
     trust_dataset := None |}.

Definition paws_x_tasks : list LightevalTaskConfig := for_each paws_x_languages paws_x_task.

Definition rcb_adapter (line : obj) : Py.result NLIInput :=
  inputs <- getitem line "inputs" ;;
  p <- getitem inputs "premise" ;;
  inputs' <- getitem line "inputs" ;;
  h <- getitem inputs' "hypothesis" ;;
  outputs <- getitem line "outputs" ;;
  n <- int outputs ;;
  Ok {| premise := p; hypothesis := h; nli_gold_idx := (n - 1)%Z |}.

Definition rcb_filter (x : obj) : Py.result bool :=
  outputs <- getitem x "outputs" ;;
  n <- int (py_or outputs (VStr "0")) ;;
  Ok (int_in n [1; 2]%Z).

Definition rcb_task (formulation : Formulation) : LightevalTaskConfig :=
  {| name := task_name "rcb" RUSSIAN formulation;
     suite := ["custom"%string];
     metric := acc_token_norm;
     prompt_function :=
       get_nli_prompt_function RUSSIAN rcb_adapter nli_relations formulation;
     hf_filter := Some rcb_filter;
     hf_repo := "ai-forever/MERA";
     hf_subset := "rcb";
     hf_revision := None;
     evaluation_splits := ["train"; "validation"]%string;
     few_shots_split := None;
     few_shots_select := None;
     generation_size := None;
     trust_dataset := None |}.

Definition rcb_tasks : list LightevalTaskConfig := map rcb_task formulations.

Definition ocnli_adapter (line : obj) : Py.result NLIInput :=
  p <- getitem line "sentence1" ;;
  h <- getitem line "sentence2" ;;
  label <- getitem line "label" ;;
  g <- display_getitem [(SInt 1, 0%Z); (SInt 2, 1%Z)] label ;;
  Ok {| premise := p; hypothesis := h; nli_gold_idx := g |}.

Definition ocnli_filter (x : obj) : Py.result bool :=
  label <- getitem x "label" ;;
  n <- int label ;;
  Ok (int_in n [1; 2]%Z).

Definition ocnli_task (formulation : Formulation) : LightevalTaskConfig :=
  {| name := task_name "ocnli" CHINESE formulation;
     suite := ["custom"%string];
     metric := acc_token_norm;
     prompt_function :=
       get_nli_prompt_function CHINESE ocnli_adapter nli_relations formulation;
     hf_filter := Some ocnli_filter;
     hf_repo := "clue/clue";
     hf_subset := "ocnli";
     hf_revision := None;
     evaluation_splits := ["validation"%string];
     few_shots_split := Some "train"%string;
     few_shots_select := None;
     generation_size := None;
     trust_dataset := None |}.

Definition ocnli_tasks : list LightevalTaskConfig := map ocnli_task formulations.

Definition cmnli_adapter (line : obj) : Py.result NLIInput :=
  p <- getitem line "sentence1" ;;
  h <- getitem line "sentence2" ;;
  label <- getitem line "label" ;;
  g <- display_getitem [(SStr "entailment", 0%Z); (SStr "contradiction", 1%Z)] label ;;
  Ok {| premise := p; hypothesis := h; nli_gold_idx := g |}.

Definition cmnli_filter (x : obj) : Py.result bool :=
  label <- getitem x "label" ;;
  Ok (py_in label [SStr "entailment"; SStr "contradiction"]).

Definition cmnli_task (formulation : Formulation) : LightevalTaskConfig :=
  {| name := task_name "cmnli" CHINESE formulation;
     suite := ["custom"%string];
     metric := acc_token_norm;
     prompt_function :=
       get_nli_prompt_function CHINESE cmnli_adapter nli_relations formulation;
     hf_filter := Some cmnli_filter;
     hf_repo := "fenffef/cmnli";
     hf_subset := "default";
     hf_revision := None;
     evaluation_splits := ["validation"%string];
     few_shots_split := Some "train"%string;
     few_shots_select := None;
     generation_size := None;
     trust_dataset := None |}.

Definition cmnli_tasks : list LightevalTaskConfig := map cmnli_task formulations.

(** *** COPA *)

Definition copa_adapter (line : obj) : Py.result COPAInput :=
  ctx <- getitem line "premise" ;;
  q <- getitem line "question" ;;
  c1 <- getitem line "choice1" ;;
  c2 <- getitem line "choice2" ;;
  label <- getitem line "label" ;;
  g <- int label ;;
  Ok {| context := ctx; cause_effect := q; copa_continuations := [c1; c2];
        copa_gold_idx := g |}.

Definition copa_languages : list Language :=
  [ESTONIAN; INDONESIAN; ITALIAN; SWAHILI; TAMIL; THAI; TURKISH; VIETNAMESE; CHINESE].

Definition copa_task (language : Language) (formulation : Formulation)
    : LightevalTaskConfig :=
  {| name := task_name "xcopa" language formulation;
     suite := ["custom"%string];
     metric := acc_token_norm;
     prompt_function := get_copa_prompt_function language copa_adapter formulation;
     hf_filter := None;
     hf_repo :=
       if Language_beq language ARABIC
       then "OALL/AlGhafa-Arabic-LLM-Benchmark-Translated" else "xcopa";
     hf_subset :=
       if Language_beq language ARABIC
       then "copa_ext_ar" else standardize_tag (value language);
     hf_revision := None;
     evaluation_splits := ["test"%string];
     few_shots_split := Some "validation"%string;
     few_shots_select := None;
     generation_size := Some (-1)%Z;
     trust_dataset := None |}.

Definition copa_tasks : list LightevalTaskConfig := for_each copa_languages copa_task.

Definition copa_indic_languages : list Language :=
  [ASSAMESE; BENGALI; GUJARATI; HINDI; KANNADA; MALAYALAM; MARATHI; NEPALI; ORIYA;
   PUNJABI; SANSKRIT; SINDHI; TAMIL; TELUGU; URDU].

Definition copa_indic_task (language : Language) (formulation : Formulation)
    : LightevalTaskConfig :=
  {| name := task_name "indicxcopa" language formulation;
     suite := ["custom"%string];
     metric := acc_token_norm;
     prompt_function := get_copa_prompt_function language copa_adapter formulation;
     hf_filter := None;
     hf_repo := "ai4bharat/IndicCOPA";
     hf_subset := ("translation-" ++ standardize_tag (value language))%string;
     hf_revision := None;
     evaluation_splits := ["test"%string];
     few_shots_split := None;
     few_shots_select := None;
     generation_size := None;
     trust_dataset := Some true |}.

Definition copa_indic_tasks : list LightevalTaskConfig :=
  for_each copa_indic_languages copa_indic_task.

Definition parus_adapter (line : obj) : Py.result COPAInput :=
  inputs <- getitem line "inputs" ;;
  ctx <- getitem inputs "premise" ;;
  meta <- getitem line "meta" ;;
  q <- getitem meta "task" ;;
  inputs1 <- getitem line "inputs" ;;
  c1 <- getitem inputs1 "choice1" ;;
  inputs2 <- getitem line "inputs" ;;
  c2 <- getitem inputs2 "choice2" ;;
  outputs <- getitem line "outputs" ;;
  n <- int outputs ;;
  Ok {| context := ctx; cause_effect := q; copa_continuations := [c1; c2];
        copa_gold_idx := (n - 1)%Z |}.

Definition parus_task (formulation : Formulation) : LightevalTaskConfig :=
  {| name := task_name "parus" RUSSIAN formulation;
     suite := ["custom"%string];
     metric := acc_token_norm;
     prompt_function := get_copa_prompt_function RUSSIAN parus_adapter formulation;
     hf_filter := None;
     hf_repo := "ai-forever/MERA";
     hf_subset := "parus";
     hf_revision := None;
     evaluation_splits := ["train"%string];
     few_shots_split := Some "validation"%string;
     few_shots_select := None;
     generation_size := None;
     trust_dataset := None |}.

Definition parus_tasks : list LightevalTaskConfig := map parus_task formulations.

(** *** HellaSwag *)

Definition hellaswag_adapter (line : obj) : Py.result HellaswagRow :=
  a <- getitem line "ctx_a" ;;
  b <- getitem line "ctx_b" ;;
  endings <- getitem line "endings" ;;
  label <- getitem line "label" ;;
  g <- int label ;;
  Ok {| row_ctx_a := a; row_ctx_b := b; row_continuations := endings;
        row_gold_idx := g |}.

Definition mlmm_hellaswag_languages : list Language :=
  [ARABIC; BENGALI; CATALAN; DANISH; GERMAN; SPANISH; BASQUE; FRENCH; GUJARATI;
   HINDI; CROATIAN; HUNGARIAN; ARMENIAN; INDONESIAN; ICELANDIC; ITALIAN; KANNADA;
   MALAYALAM; MARATHI; NORWEGIAN; NEPALI; DUTCH; PORTUGUESE; ROMANIAN; RUSSIAN;
   SLOVAK; SERBIAN; SWEDISH; TAMIL; TELUGU; UKRAINIAN; VIETNAMESE; CHINESE].

Definition mlmm_hellaswag_task (lang : Language) (formulation : Formulation)
    : LightevalTaskConfig :=
  {| name := task_name "hellaswag" lang formulation;
     suite := ["custom"%string];
     metric := acc_token_norm;
     prompt_function :=
       get_hellaswag_prompt_function lang hellaswag_adapter formulation None;
     hf_filter := None;
     hf_repo := "jon-tow/okapi_hellaswag";
     hf_subset := standardize_tag (value lang);
     hf_revision := Some "96ed8e0dfc6172dad1d3df338d7b8ba6c1ff9d83"%string;
     evaluation_splits := ["validation"%string];
     few_shots_split := None;
     few_shots_select := None;
     generation_size := None;
     trust_dataset := Some true |}.

Definition mlmm_hellaswag_tasks : list LightevalTaskConfig :=
  for_each mlmm_hellaswag_languages mlmm_hellaswag_task.

(** [" [title]", " [başlık]", " [adım]", " [header]"] *)
Definition turkish_dot_replacement : list str :=
  [lit " [title]";
   lit " [ba" ++ [351%N] ++ lit "l" ++ [305%N] ++ lit "k]";
   lit " [ad" ++ [305%N] ++ lit "m]";
   lit " [header]"].

Definition hellaswag_tur_task (formulation : Formulation) : LightevalTaskConfig :=
  {| name := task_name "hellaswag" TURKISH formulation;
     suite := ["custom"%string];
     metric := acc_token_norm;
     prompt_function :=
       get_hellaswag_prompt_function TURKISH hellaswag_adapter formulation
         (Some turkish_dot_replacement);
     hf_filter := None;
     hf_repo := "malhajar/hellaswag_tr-v0.2";
     hf_subset := "default";
     hf_revision := None;
     evaluation_splits := ["validation"%string];
     few_shots_split := None;
     few_shots_select := None;
     generation_size := None;
     trust_dataset := None |}.

Definition hellaswag_tur_tasks : list LightevalTaskConfig :=
  map hellaswag_tur_task formulations.

Definition hellaswag_tha_task (formulation : Formulation) : LightevalTaskConfig :=
  {| name := task_name "hellaswag" THAI formulation;
     suite := ["custom"%string];
     metric := acc_token_norm;
     prompt_function :=
       get_hellaswag_prompt_function THAI hellaswag_adapter formulation None;
     hf_filter := None;
     hf_repo := "HuggingFaceFW-Dev/hellaswag_thai";
     hf_subset := "default";
     hf_revision := None;
     evaluation_splits := ["validation"%string];
     few_shots_split := Some "train"%string;
     few_shots_select := None;
     generation_size := None;
     trust_dataset := None |}.

Definition hellaswag_tha_tasks : list LightevalTaskConfig :=
  map hellaswag_tha_task formulations.

Definition TASKS_TABLE : list LightevalTaskConfig :=
  xnli_tasks ++ xnli2_tasks ++ xnli_indic_tasks ++ paws_x_tasks ++ rcb_tasks
  ++ ocnli_tasks ++ cmnli_tasks ++ copa_tasks ++ copa_indic_tasks ++ parus_tasks
  ++ mlmm_hellaswag_tasks ++ hellaswag_tur_tasks ++ hellaswag_tha_tasks.

(** The three families read from XNLI-style sources with labels 0, 1, 2. *)
Definition xnli_family : list LightevalTaskConfig :=
  xnli_tasks ++ xnli2_tasks ++ xnli_indic_tasks.

(** ** Facts about the table *)

Lemma in_for_each (languages : list Language)
    (task : Language -> Formulation -> LightevalTaskConfig) (t : LightevalTaskConfig) :
  In t (for_each languages task) ->
  exists language formulation,
    In language languages /\ In formulation formulations /\ t = task language formulation.
Proof.
  unfold for_each. intros H. apply in_flat_map in H as (language & Hl & H).
  apply in_map_iff in H as (formulation & <- & Hf).
  now exists language, formulation.
Qed.

Lemma xnli_filter_numeric (line : obj) (z : Z) :
  getitem line "label" = Ok (VInt z) ->
  xnli_filter line = Ok ((z =? 0) || (z =? 2))%Z.
Proof.
  intros Hlabel. unfold xnli_filter. rewrite Hlabel. cbn.
  now rewrite orb_false_r.
Qed.

Lemma xnli_indic_filter_numeric (line : obj) (z : Z) :
  getitem line "label" = Ok (VInt z) ->
  xnli_indic_filter line = Ok ((z =? 0) || (z =? 2))%Z.
Proof.
  intros Hlabel. unfold xnli_indic_filter. rewrite Hlabel. cbn.
  now rewrite orb_false_r.
Qed.

Lemma xnli_adapter_gold (line p h : obj) (z : Z) :
  getitem line "premise" = Ok p ->
  getitem line "hypothesis" = Ok h ->
  getitem line "label" = Ok (VInt z) ->
  (z = 0%Z -> xnli_adapter line = Ok {| premise := p; hypothesis := h; nli_gold_idx := 0 |})
  /\ (z = 2%Z ->
      xnli_adapter line = Ok {| premise := p; hypothesis := h; nli_gold_idx := 1 |})
  /\ (z <> 0%Z -> z <> 2%Z -> xnli_adapter line = Raise KeyError).
Proof.
  intros Hp Hh Hlabel. unfold xnli_adapter. rewrite Hp, Hh, Hlabel. cbn.
  repeat split.
  - now intros ->.
  - now intros ->.
  - intros H0 H2. apply Z.eqb_neq in H0, H2. now rewrite H0, H2.
Qed.

Lemma cmnli_filter_string (line : obj) (label : string) :
  getitem line "label" = Ok (VStr label) ->
  cmnli_filter line = Ok ((label =? "entailment") || (label =? "contradiction"))%string.
Proof.
  intros Hlabel. unfold cmnli_filter. rewrite Hlabel. cbn.
  now rewrite orb_false_r.
Qed.

Lemma cmnli_adapter_gold (line p h : obj) (label : string) :
  getitem line "sentence1" = Ok p ->
  getitem line "sentence2" = Ok h ->
  getitem line "label" = Ok (VStr label) ->
  (label = "entailment"%string ->
   cmnli_adapter line = Ok {| premise := p; hypothesis := h; nli_gold_idx := 0 |})
  /\ (label = "contradiction"%string ->
      cmnli_adapter line = Ok {| premise := p; hypothesis := h; nli_gold_idx := 1 |}).
Proof.
  intros Hp Hh Hlabel. unfold cmnli_adapter. rewrite Hp, Hh, Hlabel.
  split; now intros ->.
Qed.

Lemma xnli_family_shape (t : LightevalTaskConfig) :
  In t xnli_family ->
  (hf_filter t = Some xnli_filter \/ hf_filter t = Some xnli_indic_filter)
  /\ exists language formulation,
       prompt_function t =
       get_nli_prompt_function language xnli_adapter nli_relations formulation.
Proof.
  unfold xnli_family, xnli_tasks, xnli2_tasks, xnli_indic_tasks. intros H.
  apply in_app_or in H as [H | H]; [| apply in_app_or in H as [H | H]];
    apply in_for_each in H as (language & formulation & _ & _ & ->);
    (split; [cbn; tauto | exists language, formulation; reflexivity]).
Qed.

Lemma cmnli_shape (t : LightevalTaskConfig) :
  In t cmnli_tasks ->
  hf_filter t = Some cmnli_filter
  /\ exists formulation,
       prompt_function t =
       get_nli_prompt_function CHINESE cmnli_adapter nli_relations formulation.
Proof.
  unfold cmnli_tasks. intros H. apply in_map_iff in H as (formulation & <- & _).
  split; [reflexivity | exists formulation; reflexivity].
Qed.

(** C1, on the code: the language list of the XCOPA family has no Arabic, so
    no task of the family is an Arabic one and every one of them reads the
    generic repository ["xcopa"]; the Arabic branch of the builder, which
    names the alternate repository and subset, is never taken. *)
Theorem xcopa_family_lacks_arabic :
  ~ In ARABIC copa_languages
  /\ (forall t, In t copa_tasks ->
        task_language t <> ARABIC
        /\ hf_repo t = "xcopa"%string
        /\ hf_subset t = standardize_tag (value (task_language t)))
  /\ (forall formulation,
        hf_repo (copa_task ARABIC formulation) =
          "OALL/AlGhafa-Arabic-LLM-Benchmark-Translated"%string
        /\ hf_subset (copa_task ARABIC formulation) = "copa_ext_ar"%string).
Proof.
  split; [| split].
  - cbn. intuition discriminate.
  - intros t H. apply in_for_each in H as (language & formulation & Hl & _ & ->).
    cbn in Hl.
    repeat (destruct Hl as [<- | Hl]; [repeat split; discriminate |]).
    contradiction.
  - intros formulation. split; reflexivity.
Qed.

(** C4, on the code: the entries 3 and 21 of the table are both the XNLI
    task for English in the multiple-choice formulation, English being
    listed twice among the XNLI languages; the names of the table are
    therefore not pairwise distinct. *)
Theorem tasks_table_repeats_a_name :
  nth_error TASKS_TABLE 3 = Some (xnli_task ENGLISH MCFFormulation)
  /\ nth_error TASKS_TABLE 21 = Some (xnli_task ENGLISH MCFFormulation)
  /\ ~ NoDup (map name TASKS_TABLE).
Proof.
  split; [reflexivity | split; [reflexivity |]].
  intros Hnodup.
  assert (H : 3 = 21); [| discriminate].
  apply (proj1 (NoDup_nth_error (map name TASKS_TABLE)) Hnodup).
  - rewrite length_map. unfold TASKS_TABLE. rewrite length_app.
    unfold xnli_tasks, for_each, xnli_languages. cbn. lia.
  - reflexivity.
Qed.

(** C7: every task of the XNLI families keeps a row with a numeric label
    exactly when the label is 0 or 2, so the neutral label 1 is filtered
    out, and its adapter sends label 0 to gold index 0 and label 2 to gold
    index 1; every CMNLI task keeps a row with a string label exactly when
    it is "entailment" or "contradiction", which its adapter sends to gold
    index 0 and 1. *)
Theorem nli_label_policy :
  (forall t, In t xnli_family ->
     exists keep adapter language relations formulation,
       hf_filter t = Some keep
       /\ prompt_function t =
          get_nli_prompt_function language adapter relations formulation
       /\ forall (line p h : obj) (z : Z),
            getitem line "label" = Ok (VInt z) ->
            keep line = Ok ((z =? 0) || (z =? 2))%Z
            /\ (getitem line "premise" = Ok p ->
                getitem line "hypothesis" = Ok h ->
                (z = 0%Z ->
                 adapter line =
                 Ok {| premise := p; hypothesis := h; nli_gold_idx := 0 |})
                /\ (z = 2%Z ->
                    adapter line =
                    Ok {| premise := p; hypothesis := h; nli_gold_idx := 1 |})))
  /\ (forall t, In t cmnli_tasks ->
        exists keep adapter language relations formulation,
          hf_filter t = Some keep
          /\ prompt_function t =
             get_nli_prompt_function language adapter relations formulation
          /\ forall (line p h : obj) (label : string),
               getitem line "label" = Ok (VStr label) ->
               keep line =
               Ok ((label =? "entailment") || (label =? "contradiction"))%string
               /\ (getitem line "sentence1" = Ok p ->
                   getitem line "sentence2" = Ok h ->
                   (label = "entailment"%string ->
                    adapter line =
                    Ok {| premise := p; hypothesis := h; nli_gold_idx := 0 |})
                   /\ (label = "contradiction"%string ->
                       adapter line =
                       Ok {| premise := p; hypothesis := h; nli_gold_idx := 1 |}))).
Proof.
  split.
  - intros t Ht.
    destruct (xnli_family_shape Ht) as [Hkeep (language & formulation & Hprompt)].
    destruct Hkeep as [Hkeep | Hkeep];
      [exists xnli_filter | exists xnli_indic_filter];
      exists xnli_adapter, language, nli_relations, formulation;
      (split; [exact Hkeep |]); (split; [exact Hprompt |]);
      intros line p h z Hlabel;
      (split; [now (apply xnli_filter_numeric || apply xnli_indic_filter_numeric) |]);
      intros Hp Hh;
      destruct (@xnli_adapter_gold line p h z Hp Hh Hlabel) as (Hzero & Htwo & _);
      split; assumption.
  - intros t Ht. destruct (cmnli_shape Ht) as [Hkeep (formulation & Hprompt)].
    exists cmnli_filter, cmnli_adapter, CHINESE, nli_relations, formulation.
    split; [exact Hkeep |]. split; [exact Hprompt |].
    intros line p h label Hlabel.
    split; [now apply cmnli_filter_string |].
    intros Hp Hh. exact (@cmnli_adapter_gold line p h label Hp Hh Hlabel).
Qed.

(** ** Further properties of the catalog *)

Lemma xnli_accepts_iff_adapts (line p h label : obj) :
  getitem line "premise" = Ok p ->
  getitem line "hypothesis" = Ok h ->
  getitem line "label" = Ok label ->
  (xnli_filter line = Ok true <-> exists input, xnli_adapter line = Ok input)
  /\ (forall input,
        xnli_adapter line = Ok input ->
        premise input = p /\ hypothesis input = h
        /\ (nli_gold_idx input = 0%Z \/ nli_gold_idx input = 1%Z)).
Proof.
  intros Hp Hh Hlabel. unfold xnli_filter, xnli_adapter.
  rewrite Hp, Hh, Hlabel. cbn [bind]. unfold display_getitem, py_in.
  destruct label as [| z | s | items | fields]; cbn.
  - split; [split; [discriminate | intros [input H]; discriminate] |].
    intros input H. discriminate.
  - destruct (z =? 0)%Z, (z =? 2)%Z; cbn;
      (split; [first [split; [intros _; eexists; reflexivity | reflexivity]
                     | split; [discriminate | intros [input H]; discriminate]] |]);
      intros input H; try discriminate; injection H as <-; cbn; tauto.
  - split; [split; [discriminate | intros [input H]; discriminate] |].
    intros input H. discriminate.
  - split; [split; [discriminate | intros [input H]; discriminate] |].
    intros input H. discriminate.
  - split; [split; [discriminate | intros [input H]; discriminate] |].
    intros input H. discriminate.
Qed.

Lemma cmnli_accepts_iff_adapts (line p h label : obj) :
  getitem line "sentence1" = Ok p ->
  getitem line "sentence2" = Ok h ->
  getitem line "label" = Ok label ->
  (cmnli_filter line = Ok true <-> exists input, cmnli_adapter line = Ok input)
  /\ (forall input,
        cmnli_adapter line = Ok input ->
        premise input = p /\ hypothesis input = h
        /\ (nli_gold_idx input = 0%Z \/ nli_gold_idx input = 1%Z)).
Proof.
  intros Hp Hh Hlabel. unfold cmnli_filter, cmnli_adapter.
  rewrite Hp, Hh, Hlabel. cbn [bind]. unfold display_getitem, py_in.
  destruct label as [| z | s | items | fields];
    cbn [hashable existsb equals display_get orb bind].
  - split; [split; [discriminate | intros [input H]; discriminate] |].
    intros input H. discriminate.
  - split; [split; [discriminate | intros [input H]; discriminate] |].
    intros input H. discriminate.
  - destruct (s =? "entailment")%string, (s =? "contradiction")%string; cbn [orb bind];
      (split; [first [split; [intros _; eexists; reflexivity | reflexivity]
                     | split; [discriminate | intros [input H]; discriminate]] |]);
      intros input H; try discriminate; injection H as <-; cbn; tauto.
  - split; [split; [discriminate | intros [input H]; discriminate] |].
    intros input H. discriminate.
  - split; [split; [discriminate | intros [input H]; discriminate] |].
    intros input H. discriminate.
Qed.

(** X20: In XNLI, XNLI 2.0 and CMNLI the filter and the adapter agree on every
    row that has its two sentences and a label of whatever kind: the filter
    keeps the row exactly when the adapter returns, and what the adapter
    returns has the row's sentences and gold index 0 or 1.  A kept row
    never makes the adapter raise. *)
Theorem filter_keeps_what_adapter_takes :
  (forall t, In t (xnli_tasks ++ xnli2_tasks) ->
     exists keep adapter language relations formulation,
       hf_filter t = Some keep
       /\ prompt_function t =
          get_nli_prompt_function language adapter relations formulation
       /\ forall line p h label,
            getitem line "premise" = Ok p ->
            getitem line "hypothesis" = Ok h ->
            getitem line "label" = Ok label ->
            (keep line = Ok true <-> exists input, adapter line = Ok input)
            /\ (forall input,
                  adapter line = Ok input ->
                  premise input = p /\ hypothesis input = h
                  /\ (nli_gold_idx input = 0%Z \/ nli_gold_idx input = 1%Z)))
  /\ (forall t, In t cmnli_tasks ->
        exists keep adapter language relations formulation,
          hf_filter t = Some keep
          /\ prompt_function t =
             get_nli_prompt_function language adapter relations formulation
          /\ forall line p h label,
               getitem line "sentence1" = Ok p ->
               getitem line "sentence2" = Ok h ->
               getitem line "label" = Ok label ->
               (keep line = Ok true <-> exists input, adapter line = Ok input)
               /\ (forall input,
                     adapter line = Ok input ->
                     premise input = p /\ hypothesis input = h
                     /\ (nli_gold_idx input = 0%Z \/ nli_gold_idx input = 1%Z))).
Proof.
  split.
  - intros t Ht. unfold xnli_tasks, xnli2_tasks in Ht.
    apply in_app_or in Ht as [Ht | Ht];
      apply in_for_each in Ht as (language & formulation & _ & _ & ->);
      exists xnli_filter, xnli_adapter, language, nli_relations, formulation;
      (split; [reflexivity |]); (split; [reflexivity |]);
      intros line p h label; apply xnli_accepts_iff_adapts.
  - intros t Ht. unfold cmnli_tasks in Ht.
    apply in_map_iff in Ht as (formulation & <- & _).
    exists cmnli_filter, cmnli_adapter, CHINESE, nli_relations, formulation.
    split; [reflexivity |]. split; [reflexivity |].
    intros line p h label. apply cmnli_accepts_iff_adapts.
Qed.

(** X21: In Indic XNLI and in OCNLI the filter converts the label with [int] and
    the adapter does not: a row whose label is a text that [int] reads as a
    number the filter keeps (0 or 2 for Indic XNLI, 1 or 2 for OCNLI) passes
    the filter and then makes the adapter raise [KeyError]. *)
Theorem textual_label_passes_filter_and_breaks_adapter :
  (forall t, In t xnli_indic_tasks ->
     exists keep adapter language relations formulation,
       hf_filter t = Some keep
       /\ prompt_function t =
          get_nli_prompt_function language adapter relations formulation
       /\ forall line p h (s : string) (z : Z),
            getitem line "premise" = Ok p ->
            getitem line "hypothesis" = Ok h ->
            getitem line "label" = Ok (VStr s) ->
            int_of_str s = Ok z ->
            z = 0%Z \/ z = 2%Z ->
            keep line = Ok true /\ adapter line = Raise KeyError)
  /\ (forall t, In t ocnli_tasks ->
        exists keep adapter language relations formulation,
          hf_filter t = Some keep
          /\ prompt_function t =
             get_nli_prompt_function language adapter relations formulation
          /\ forall line p h (s : string) (z : Z),
               getitem line "sentence1" = Ok p ->
               getitem line "sentence2" = Ok h ->
               getitem line "label" = Ok (VStr s) ->
               int_of_str s = Ok z ->
               z = 1%Z \/ z = 2%Z ->
               keep line = Ok true /\ adapter line = Raise KeyError).
Proof.
  split.
  - intros t Ht. unfold xnli_indic_tasks in Ht.
    apply in_for_each in Ht as (language & formulation & _ & _ & ->).
    exists xnli_indic_filter, xnli_adapter, language, nli_relations, formulation.
    split; [reflexivity |]. split; [reflexivity |].
    intros line p h s z Hp Hh Hlabel Hint Hz.
    unfold xnli_indic_filter, xnli_adapter. rewrite Hp, Hh, Hlabel.
    cbn [bind int]. rewrite Hint. cbn [bind]. split; [| reflexivity].
    destruct Hz as [-> | ->]; reflexivity.
  - intros t Ht. unfold ocnli_tasks in Ht.
    apply in_map_iff in Ht as (formulation & <- & _).
    exists ocnli_filter, ocnli_adapter, CHINESE, nli_relations, formulation.
    split; [reflexivity |]. split; [reflexivity |].
    intros line p h s z Hp Hh Hlabel Hint Hz.
    unfold ocnli_filter, ocnli_adapter. rewrite Hp, Hh, Hlabel.
    cbn [bind int]. rewrite Hint. cbn [bind]. split; [| reflexivity].
    destruct Hz as [-> | ->]; reflexivity.
Qed.

(** X22: Every OCNLI task keeps a row with a numeric label exactly when the
    label is 1 or 2, and its adapter sends label 1 to gold index 0 and
    label 2 to gold index 1; any other numeric label makes the adapter
    raise [KeyError]. *)
Theorem ocnli_label_policy :
  forall t, In t ocnli_tasks ->
    exists keep adapter language relations formulation,
      hf_filter t = Some keep
      /\ prompt_function t =
         get_nli_prompt_function language adapter relations formulation
      /\ forall (line p h : obj) (z : Z),
           getitem line "label" = Ok (VInt z) ->
           keep line = Ok ((z =? 1) || (z =? 2))%Z
           /\ (getitem line "sentence1" = Ok p ->
               getitem line "sentence2" = Ok h ->
               (z = 1%Z ->
                adapter line = Ok {| premise := p; hypothesis := h; nli_gold_idx := 0 |})
               /\ (z = 2%Z ->
                   adapter line =
                   Ok {| premise := p; hypothesis := h; nli_gold_idx := 1 |})
               /\ (z <> 1%Z -> z <> 2%Z -> adapter line = Raise KeyError)).
Proof.
  intros t Ht. unfold ocnli_tasks in Ht.
  apply in_map_iff in Ht as (formulation & <- & _).
  exists ocnli_filter, ocnli_adapter, CHINESE, nli_relations, formulation.
  split; [reflexivity |]. split; [reflexivity |].
  intros line p h z Hlabel. split.
  - unfold ocnli_filter. rewrite Hlabel. cbn. now rewrite orb_false_r.
  - intros Hp Hh. unfold ocnli_adapter. rewrite Hp, Hh, Hlabel. cbn.
    repeat split.
    + now intros ->.
    + now intros ->.
    + intros H1 H2. apply Z.eqb_neq in H1, H2. now rewrite H1, H2.
Qed.

(** X23: RCB reads its label from the text field [outputs].  A row whose
    [outputs] is empty or missing in value (None, the empty text, 0) is
    read as 0 and dropped without an error; a row whose [outputs] is a text
    that [int] reads as [n] is kept exactly when [n] is 1 or 2, and the
    adapter gives it the gold index [n - 1]: kept rows get 0 or 1. *)
Theorem rcb_label_policy :
  int_of_str "0" = Ok 0%Z ->
  forall t, In t rcb_tasks ->
    exists keep adapter language relations formulation,
      hf_filter t = Some keep
      /\ prompt_function t =
         get_nli_prompt_function language adapter relations formulation
      /\ (forall line outputs,
            getitem line "outputs" = Ok outputs ->
            truth outputs = false ->
            keep line = Ok false)
      /\ (forall line inputs p h (s : string) (n : Z),
            getitem line "outputs" = Ok (VStr s) ->
            s <> ""%string ->
            int_of_str s = Ok n ->
            keep line = Ok ((n =? 1) || (n =? 2))%Z
            /\ (getitem line "inputs" = Ok inputs ->
                getitem inputs "premise" = Ok p ->
                getitem inputs "hypothesis" = Ok h ->
                adapter line =
                Ok {| premise := p; hypothesis := h; nli_gold_idx := (n - 1)%Z |})).
Proof.
  intros Hzero t Ht. unfold rcb_tasks in Ht.
  apply in_map_iff in Ht as (formulation & <- & _).
  exists rcb_filter, rcb_adapter, RUSSIAN, nli_relations, formulation.
  split; [reflexivity |]. split; [reflexivity |]. split.
  - intros line outputs Hout Hfalsy. unfold rcb_filter, py_or.
    rewrite Hout. cbn [bind]. rewrite Hfalsy. cbn [int]. now rewrite Hzero.
  - intros line inputs p h s n Hout Hs Hint. split.
    + unfold rcb_filter, py_or. rewrite Hout. cbn [bind truth].
      apply String.eqb_neq in Hs. rewrite Hs. cbn [negb int]. rewrite Hint.
      cbn. now rewrite orb_false_r.
    + intros Hin Hp Hh. unfold rcb_adapter.
      rewrite Hin. cbn [bind]. rewrite Hp. cbn [bind]. rewrite Hh, Hout.
      cbn [bind int]. now rewrite Hint.
Qed.

Lemma Forall_for_each (P : LightevalTaskConfig -> Prop) (languages : list Language)
    (task : Language -> Formulation -> LightevalTaskConfig) :
  (forall language formulation, P (task language formulation)) ->
  Forall P (for_each languages task).
Proof.
  intros H. apply Forall_forall. intros t Ht.
  apply in_for_each in Ht as (language & formulation & _ & _ & ->). apply H.
Qed.

Lemma Forall_formulations (P : LightevalTaskConfig -> Prop)
    (task : Formulation -> LightevalTaskConfig) :
  (forall formulation, P (task formulation)) -> Forall P (map task formulations).
Proof.
  intros H. apply Forall_forall. intros t Ht.
  apply in_map_iff in Ht as (formulation & <- & _). apply H.
Qed.

(** X24: Every task of the table, in all thirteen families, is in the suite
    "custom", is scored by the one metric (log-likelihood accuracy with
    token-length normalisation) and names at least one evaluation split. *)
Theorem every_task_is_custom_and_scored_alike :
  Forall (fun t =>
            suite t = ["custom"%string]
            /\ metric t = [loglikelihood_acc_metric LogProbTokenNorm]
            /\ evaluation_splits t <> [])
    TASKS_TABLE.
Proof.
  unfold TASKS_TABLE. rewrite !Forall_app.
  unfold xnli_tasks, xnli2_tasks, xnli_indic_tasks, paws_x_tasks, rcb_tasks,
    ocnli_tasks, cmnli_tasks, copa_tasks, copa_indic_tasks, parus_tasks,
    mlmm_hellaswag_tasks, hellaswag_tur_tasks, hellaswag_tha_tasks.
  repeat split;
    first [apply Forall_for_each | apply Forall_formulations];
    intros; cbn; repeat split; discriminate.
Qed.

(** X25: The Turkish HellaSwag tasks name four placeholders, and none of the
    four survives the cleanup done with that list, whatever the text. *)
Theorem turkish_placeholders_never_survive :
  forall t, In t hellaswag_tur_tasks ->
    exists adapter formulation dot_replacement,
      prompt_function t =
      get_hellaswag_prompt_function TURKISH adapter formulation (Some dot_replacement)
      /\ length dot_replacement = 4
      /\ forall placeholder text,
           In placeholder dot_replacement ->
           contains placeholder (Hellaswag.preprocess dot_replacement text) = false.
Proof.
  intros t Ht. unfold hellaswag_tur_tasks in Ht.
  apply in_map_iff in Ht as (formulation & <- & _).
  exists hellaswag_adapter, formulation, turkish_dot_replacement.
  split; [reflexivity |]. split; [reflexivity |].
  intros placeholder text Hin.
  pose proof (Hellaswag.no_fragment_preprocess turkish_dot_replacement text) as Hclean.
  cbn in Hin. destruct Hin as [<- | [<- | [<- | [<- | []]]]].
  - apply (@Hellaswag.no_fragment_excludes _ (lit "title") [space] Hclean). reflexivity.
  - apply (@Hellaswag.no_fragment_excludes _
             (lit "ba" ++ [351%N] ++ lit "l" ++ [305%N] ++ lit "k") [space] Hclean).
    reflexivity.
  - apply (@Hellaswag.no_fragment_excludes _ (lit "ad" ++ [305%N] ++ lit "m") [space] Hclean).
    reflexivity.
  - apply (@Hellaswag.no_fragment_excludes _ (lit "header") [space] Hclean). reflexivity.
Qed.

End Catalog.

(** ** One reading of the outside names, and two rows *)

Definition sample_value (language : Language) : string :=
  match language with
  | ENGLISH => "en"
  | CHINESE => "zh"
  | _ => "xx"
  end.

Definition sample_formulation_name (formulation : Formulation) : string :=
  match formulation with
  | MCFFormulation => "mcf"
  | CFFormulation => "cf"
  | HybridFormulation => "hybrid"
  end.

Definition same (s : string) : string := s.

Definition no_int (s : string) : Py.result Z :=
  Raise (ValueError "invalid literal for int()").

Definition xnli_row : obj :=
  VDict [("premise", VStr "It rains."); ("hypothesis", VStr "It is dry.");
         ("label", VInt 2)]%string.

Definition cmnli_row : obj :=
  VDict [("sentence1", VStr "It rains."); ("sentence2", VStr "Rain falls.");
         ("label", VStr "entailment")]%string.

Definition sample_xnli_task : LightevalTaskConfig :=
  xnli_task sample_value sample_formulation_name same same ENGLISH CFFormulation.

Definition sample_cmnli_task : LightevalTaskConfig :=
  cmnli_task sample_value sample_formulation_name same HybridFormulation.

Lemma nli_label_policy_witness :
  (exists keep adapter,
     hf_filter sample_xnli_task = Some keep
     /\ keep xnli_row = Ok true
     /\ adapter xnli_row =
        Ok {| premise := VStr "It rains."; hypothesis := VStr "It is dry.";
              nli_gold_idx := 1 |})
  /\ (exists keep adapter,
        hf_filter sample_cmnli_task = Some keep
        /\ keep cmnli_row = Ok true
        /\ adapter cmnli_row =
           Ok {| premise := VStr "It rains."; hypothesis := VStr "Rain falls.";
                 nli_gold_idx := 0 |}).
Proof.
  split.
  - destruct (proj1 (nli_label_policy sample_value sample_formulation_name same same
                       same no_int) sample_xnli_task)
      as (keep & adapter & language & relations & formulation & Hkeep & _ & Hrow).
    + unfold xnli_family. apply in_or_app. left. cbn. tauto.
    + exists keep, adapter.
      destruct (Hrow xnli_row (VStr "It rains.") (VStr "It is dry.") 2%Z eq_refl)
        as [Hk Ha].
      destruct (Ha eq_refl eq_refl) as [_ Htwo].
      split; [exact Hkeep |]. split; [exact Hk | exact (Htwo eq_refl)].
  - destruct (proj2 (nli_label_policy sample_value sample_formulation_name same same
                       same no_int) sample_cmnli_task)
      as (keep & adapter & language & relations & formulation & Hkeep & _ & Hrow).
    + cbn. tauto.
    + exists keep, adapter.
      destruct (Hrow cmnli_row (VStr "It rains.") (VStr "Rain falls.")
                  "entailment"%string eq_refl) as [Hk Ha].
      destruct (Ha eq_refl eq_refl) as [Hent _].
      split; [exact Hkeep |]. split; [exact Hk | exact (Hent eq_refl)].
Defined.

(** ** Rows with textual labels *)

Definition digit_int (s : string) : Py.result Z :=
  if (s =? "0")%string then Ok 0%Z
  else if (s =? "1")%string then Ok 1%Z
  else if (s =? "2")%string then Ok 2%Z
  else if (s =? "3")%string then Ok 3%Z
  else Raise (ValueError "invalid literal for int()").

Definition indic_row : obj :=
  VDict [("premise", VStr "It rains."); ("hypothesis", VStr "It is dry.");
         ("label", VStr "2")]%string.

Definition rcb_row : obj :=
  VDict [("inputs", VDict [("premise", VStr "It rains.");
                           ("hypothesis", VStr "It is dry.")]);
         ("outputs", VStr "2")]%string.

Definition ocnli_row : obj :=
  VDict [("sentence1", VStr "It rains."); ("sentence2", VStr "Rain falls.");
         ("label", VInt 1)]%string.

Lemma filter_keeps_what_adapter_takes_witness :
  exists keep (adapter : obj -> Py.result NLIInput),
    hf_filter sample_xnli_task = Some keep
    /\ (keep xnli_row = Ok true <-> exists input, adapter xnli_row = Ok input).
Proof.
  destruct (proj1 (filter_keeps_what_adapter_takes sample_value sample_formulation_name
                     same same same no_int) sample_xnli_task)
    as (keep & adapter & language & relations & formulation & Hkeep & _ & Hrow).
  - apply in_or_app. left. cbn. tauto.
  - exists keep, adapter. split; [exact Hkeep |].
    exact (proj1 (Hrow xnli_row (VStr "It rains.") (VStr "It is dry.") (VInt 2)
                    eq_refl eq_refl eq_refl)).
Defined.

Lemma textual_label_passes_filter_and_breaks_adapter_witness :
  exists keep (adapter : obj -> Py.result NLIInput),
    hf_filter (xnli_indic_task sample_value sample_formulation_name same same digit_int
                 HINDI MCFFormulation) = Some keep
    /\ keep indic_row = Ok true
    /\ adapter indic_row = Raise KeyError.
Proof.
  destruct (proj1 (textual_label_passes_filter_and_breaks_adapter sample_value
                     sample_formulation_name same same digit_int)
              (xnli_indic_task sample_value sample_formulation_name same same digit_int
                 HINDI MCFFormulation))
    as (keep & adapter & language & relations & formulation & Hkeep & _ & Hrow).
  - cbn. tauto.
  - exists keep, adapter. split; [exact Hkeep |].
    apply (Hrow indic_row (VStr "It rains.") (VStr "It is dry.") "2"%string 2%Z);
      try reflexivity.
    right. reflexivity.
Defined.

Lemma ocnli_label_policy_witness :
  exists keep adapter,
    hf_filter (ocnli_task sample_value sample_formulation_name same digit_int
                 CFFormulation) = Some keep
    /\ keep ocnli_row = Ok true
    /\ adapter ocnli_row =
       Ok {| premise := VStr "It rains."; hypothesis := VStr "Rain falls.";
             nli_gold_idx := 0 |}.
Proof.
  destruct (@ocnli_label_policy sample_value sample_formulation_name same digit_int
              (ocnli_task sample_value sample_formulation_name same digit_int
                 CFFormulation))
    as (keep & adapter & language & relations & formulation & Hkeep & _ & Hrow).
  - cbn. tauto.
  - exists keep, adapter. split; [exact Hkeep |].
    destruct (Hrow ocnli_row (VStr "It rains.") (VStr "Rain falls.") 1%Z eq_refl)
      as [Hk Ha].
    split; [exact Hk |]. exact (proj1 (Ha eq_refl eq_refl) eq_refl).
Defined.

Lemma rcb_label_policy_witness :
  exists keep adapter,
    hf_filter (rcb_task sample_value sample_formulation_name same digit_int
                 MCFFormulation) = Some keep
    /\ keep rcb_row = Ok true
    /\ adapter rcb_row =
       Ok {| premise := VStr "It rains."; hypothesis := VStr "It is dry.";
             nli_gold_idx := 1 |}.
Proof.
  destruct (@rcb_label_policy sample_value sample_formulation_name same digit_int
              eq_refl
              (rcb_task sample_value sample_formulation_name same digit_int
                 MCFFormulation))
    as (keep & adapter & language & relations & formulation & Hkeep & _ & _ & Hrow).
  - cbn. tauto.
  - exists keep, adapter. split; [exact Hkeep |].
    destruct (Hrow rcb_row
                (VDict [("premise", VStr "It rains.");
                        ("hypothesis", VStr "It is dry.")]%string)
                (VStr "It rains.") (VStr "It is dry.") "2"%string 2%Z eq_refl)
      as [Hk Ha]; [discriminate | reflexivity |].
    split; [exact Hk |]. exact (Ha eq_refl eq_refl eq_refl).
Defined.

Lemma turkish_placeholders_never_survive_witness :
  exists dot_replacement,
    length dot_replacement = 4
    /\ contains (lit " [header]")
         (Hellaswag.preprocess dot_replacement (lit "a [header] b")) = false.
Proof.
  destruct (@turkish_placeholders_never_survive sample_value sample_formulation_name
              same digit_int
              (hellaswag_tur_task sample_value sample_formulation_name same digit_int
                 HybridFormulation))
    as (adapter & formulation & dot_replacement & Hprompt & Hlen & Hgone).
  - cbn. tauto.
  - exists dot_replacement. split; [exact Hlen |].
    apply Hgone. injection Hprompt as _ _ <-. cbn. tauto.
Defined.

End Multilingual.

(* ================================================================== *)
(** * src/lighteval/pipeline.py: the constructor's guard *)
(* ================================================================== *)

Module Pipeline.

Import Py.

Section Init.

(** The classes of the two arguments are declared elsewhere; what the guard
    consults is the truth value of an instance. *)
Variables Model ModelConfig : Type.
Variable model_truth : Model -> bool.
Variable model_config_truth : ModelConfig -> bool.

(** What the constructor goes on to build, and the rest of its body. *)
Variables Tasks PipelineParameters EvaluationTracker Pipeline : Type.
Variable build :
  Tasks -> PipelineParameters -> EvaluationTracker -> option Model ->
  option ModelConfig -> Py.result Pipeline.

(** Truth value of an argument that defaults to [None]. *)
Definition truth {A} (truth_of : A -> bool) (argument : option A) : bool :=
  match argument with
  | None => false
  | Some a => truth_of a
  end.

Definition missing_model_message : string :=
  "Must provide either a model or model config when creating a pipeline.".

(** [if not (model or model_config): raise ValueError(...)] *)
Definition check_model (model : option Model) (model_config : option ModelConfig)
    : Py.result unit :=
  if negb (truth model_truth model || truth model_config_truth model_config)
  then Raise (ValueError missing_model_message)
  else Ok tt.

Definition __init__ (tasks : Tasks) (pipeline_parameters : PipelineParameters)
    (evaluation_tracker : EvaluationTracker) (model : option Model)
    (model_config : option ModelConfig) : Py.result Pipeline :=
  _ <- check_model model model_config ;;
  build tasks pipeline_parameters evaluation_tracker model model_config.

(** C9: with model and configuration objects that count as true, as
    instances of plain classes do, the guard raises the [ValueError] exactly
    when neither a model nor a model configuration is given; with at least
    one of them, both included, it lets the constructor go on. *)
Theorem init_requires_model_or_config
    (tasks : Tasks) (pipeline_parameters : PipelineParameters)
    (evaluation_tracker : EvaluationTracker)
    (model : option Model) (model_config : option ModelConfig) :
  (forall m, model_truth m = true) ->
  (forall c, model_config_truth c = true) ->
  (check_model model model_config = Raise (ValueError missing_model_message)
   <-> model = None /\ model_config = None)
  /\ (model <> None \/ model_config <> None ->
      check_model model model_config = Ok tt
      /\ __init__ tasks pipeline_parameters evaluation_tracker model model_config =
         build tasks pipeline_parameters evaluation_tracker model model_config)
  /\ (model = None -> model_config = None ->
      __init__ tasks pipeline_parameters evaluation_tracker model model_config =
      Raise (ValueError missing_model_message)).
Proof.
  intros Hm Hc. unfold __init__, check_model.
  destruct model as [m |], model_config as [c |]; cbn [truth];
    rewrite ?Hm, ?Hc; cbn; repeat split;
    try congruence; try tauto; try discriminate.
  all: try (intros [H | H]; congruence).
  all: try (intros [H1 H2]; discriminate).
Qed.

End Init.

Definition any_object (o : unit) : bool := true.

Definition build_nothing (tasks pipeline_parameters evaluation_tracker : unit)
    (model model_config : option unit) : Py.result unit :=
  Ok tt.

Lemma init_requires_model_or_config_witness :
  check_model any_object any_object (Some tt) (Some tt) = Ok tt
  /\ __init__ any_object any_object build_nothing tt tt tt None None =
     Raise (ValueError missing_model_message).
Proof.
  split.
  - refine (proj1 (proj1 (proj2 (@init_requires_model_or_config
                                   unit unit any_object any_object unit unit unit unit
                                   build_nothing tt tt tt (Some tt) (Some tt) _ _)) _));
      [reflexivity | reflexivity | left; discriminate].
  - refine (proj2 (proj2 (@init_requires_model_or_config
                            unit unit any_object any_object unit unit unit unit
                            build_nothing tt tt tt None None _ _)) _ _);
      reflexivity.
Defined.

End Pipeline.

(* ================================================================== *)
(** * src/lighteval/pipeline.py: parameters, construction, evaluation *)
(* ================================================================== *)

Module PipelineRun.

Import Py.

Inductive ParallelismManager : Type :=
| ACCELERATE
| NANOTRON
| TGI
| NONE.

(** What [evaluate] does to its collaborators, in order. *)
Inductive action : Type :=
| LogArgsInfo
| RunEvaluation
| LogEndTime
| AggregateMetrics (bootstrap_iters : Z)
| AggregateDetails
| Rmtree (directory : string)
| ModelCleanup.

(** How [shutil.rmtree] ends: the directory is gone, an [OSError] (no such
    directory, say), or another exception. *)
Inductive removal : Type :=
| Removed
| RaisedOSError
| RaisedOther (e : Py.exn).

Section Run.

(** The classes of the collaborators are declared outside this file. *)
Variables EnvConfig Model ModelConfig Accelerator ParallelContext : Type.
Variables EvaluationTracker Tasks Loaded : Type.

(** The environment: which libraries can be imported, and their messages. *)
Variables is_accelerate_available is_tgi_available is_nanotron_available : bool.
Variables NO_ACCELERATE_ERROR_MSG NO_TGI_ERROR_MSG NO_NANOTRON_ERROR_MSG : string.

(** Truth values of the objects the code tests. *)
Variable model_truth : Model -> bool.
Variable model_config_truth : ModelConfig -> bool.
Variable accelerator_truth : Accelerator -> bool.
Variable parallel_context_truth : ParallelContext -> bool.

(** The calls into accelerate, nanotron and the model loader.  What only
    logs ([hlog], the blocks of [htrack_block]) and the hand-over between
    processes ([main_process_first]) are left out. *)
Variable new_accelerator : Z -> Py.result Accelerator.
Variable test_all_gather_accelerator : Accelerator -> Py.result unit.
Variable initialize_torch_distributed : Py.result unit.
Variable parallelism : ModelConfig -> Py.result (Z * Z * Z).
Variable new_parallel_context : Z -> Z -> Z -> Py.result ParallelContext.
Variable test_all_gather_context : ParallelContext -> Py.result unit.
Variable dirname : string -> string.
Variable NanotronLightevalModel :
  string -> option ModelConfig -> option Accelerator -> EnvConfig -> Py.result Model.
Variable load_model : ModelConfig -> EnvConfig -> Py.result Model.

Record PipelineParameters : Type := {
  launcher_type : ParallelismManager;
  env_config : EnvConfig;
  job_id : Z;
  dataset_loading_processes : Z;
  nanotron_checkpoint_path : option string;
  custom_tasks_directory : option string;
  override_batch_size : option Z;
  num_fewshot_seeds : Z;
  max_samples : option Z;
  use_chat_template : bool;
  system_prompt : option string
}.

Definition __post_init__ (self : PipelineParameters) : Py.result PipelineParameters :=
  match launcher_type self with
  | ACCELERATE =>
      if negb is_accelerate_available then Raise (ImportError NO_ACCELERATE_ERROR_MSG)
      else Ok self
  | TGI =>
      if negb is_tgi_available then Raise (ImportError NO_TGI_ERROR_MSG) else Ok self
  | NANOTRON =>
      if negb is_nanotron_available then Raise (ImportError NO_NANOTRON_ERROR_MSG)
      else Ok self
  | NONE => Ok self
  end.

(** The attributes of a pipeline under construction; [None] is an
    attribute that has not been assigned yet. *)
Record Pipeline : Type := {
  pipeline_parameters : option PipelineParameters;
  self_launcher_type : option ParallelismManager;
  accelerator : option (option Accelerator);
  parallel_context : option (option ParallelContext);
  evaluation_tracker : option EvaluationTracker;
  model_config : option (option ModelConfig);
  model : option (option Model)
}.

(** [self.name] *)
Definition attribute {A} (name : string) (slot : option A) : Py.result A :=
  match slot with
  | Some a => Ok a
  | None => Raise (AttributeError ("'Pipeline' object has no attribute '" ++ name ++ "'"))
  end.

Definition _init_parallelism_manager (self : Pipeline)
    : Py.result (option Accelerator * option ParallelContext) :=
  launcher <- attribute "launcher_type" (self_launcher_type self) ;;
  match launcher with
  | ACCELERATE =>
      if negb is_accelerate_available then
        Raise (ValueError
                 "You are trying to launch an accelerate model, but accelerate is not installed")
      else
        acc <- new_accelerator 3000 ;;
        _ <- test_all_gather_accelerator acc ;;
        Ok (Some acc, None)
  | NANOTRON =>
      if negb is_nanotron_available then
        Raise (ValueError
                 "You are trying to launch a nanotron model, but nanotron is not installed")
      else
        _ <- initialize_torch_distributed ;;
        config <- attribute "model_config" (model_config self) ;;
        sizes <- match config with
                 | Some c => parallelism c
                 | None =>
                     Raise (AttributeError "'NoneType' object has no attribute 'parallelism'")
                 end ;;
        let '(tp, pp, dp) := sizes in
        context <- new_parallel_context tp pp dp ;;
        _ <- test_all_gather_context context ;;
        Ok (None, Some context)
  | TGI | NONE => Ok (None, None)
  end.

(** Truth value of an attribute that may hold [None]. *)
Definition holds {A} (truth_of : A -> bool) (slot : option A) : bool :=
  match slot with
  | Some a => truth_of a
  | None => false
  end.

Definition _init_model (self : Pipeline) (config : option ModelConfig)
    (given : option Model) : Py.result (option Model) :=
  match config with
  | Some c =>
      context <- attribute "parallel_context" (parallel_context self) ;;
      if holds parallel_context_truth context then
        params <- attribute "pipeline_parameters" (pipeline_parameters self) ;;
        path <- match nanotron_checkpoint_path params with
                | Some p => Ok p
                | None =>
                    Raise (TypeError "expected str, bytes or os.PathLike object, not NoneType")
                end ;;
        stored <- attribute "model_config" (model_config self) ;;
        acc <- attribute "accelerator" (accelerator self) ;;
        m <- NanotronLightevalModel (dirname path) stored acc (env_config params) ;;
        Ok (Some m)
      else
        acc <- attribute "accelerator" (accelerator self) ;;
        params <- attribute "pipeline_parameters" (pipeline_parameters self) ;;
        m <- load_model c (env_config params) ;;
        Ok (Some m)
  | None => Ok given
  end.

(** The rest of the constructor: the model is logged, the tasks and
    requests are built and the seeds are set. *)
Variable finish : Pipeline -> Tasks -> Py.result Loaded.

Definition __init__ (tasks : Tasks) (parameters : PipelineParameters)
    (tracker : EvaluationTracker) (given : option Model) (config : option ModelConfig)
    : Py.result Loaded :=
  _ <- Pipeline.check_model model_truth model_config_truth given config ;;
  let self :=
    {| pipeline_parameters := Some parameters;
       self_launcher_type := Some (launcher_type parameters);
       accelerator := None; parallel_context := None;
       evaluation_tracker := None; model_config := None; model := None |} in
  contexts <- _init_parallelism_manager self ;;
  let self :=
    {| pipeline_parameters := pipeline_parameters self;
       self_launcher_type := self_launcher_type self;
       accelerator := Some (fst contexts); parallel_context := Some (snd contexts);
       evaluation_tracker := Some tracker; model_config := Some config;
       model := None |} in
  m <- _init_model self config given ;;
  let self :=
    {| pipeline_parameters := pipeline_parameters self;
       self_launcher_type := self_launcher_type self;
       accelerator := accelerator self; parallel_context := parallel_context self;
       evaluation_tracker := evaluation_tracker self; model_config := model_config self;
       model := Some m |} in
  finish self tasks.

(** ** [evaluate]

    A pipeline that has been constructed, with the attributes [evaluate]
    reads.  The calls on the tracker's loggers and [model.cleanup()] are
    recorded as actions and taken to return. *)

Variable TaskData : Type.
Variable evaluate_engine :
  Model -> TaskData -> option Z -> EvaluationTracker -> Py.result EvaluationTracker.
Variable is_main_process : Accelerator -> bool.
Variable get_rank : ParallelContext -> Z.
Variable model_name : EvaluationTracker -> string.
Variable rmtree : string -> removal.

Record Ready : Type := {
  ready_parameters : PipelineParameters;
  ready_accelerator : option Accelerator;
  ready_parallel_context : option ParallelContext;
  ready_tracker : EvaluationTracker;
  ready_model_config : option ModelConfig;
  ready_model : Model;
  ready_tasks : TaskData
}.

(** The value of [context]: the rank test of the accelerator or of the
    parallel context when there is one, and otherwise a [nullcontext()],
    which counts as true. *)
Definition compiles_results (self : Ready) : bool :=
  match ready_accelerator self with
  | Some a =>
      if accelerator_truth a then is_main_process a
      else match ready_parallel_context self with
           | Some c => if parallel_context_truth c then (get_rank c =? 0)%Z else true
           | None => true
           end
  | None =>
      match ready_parallel_context self with
      | Some c => if parallel_context_truth c then (get_rank c =? 0)%Z else true
      | None => true
      end
  end.

Definition weights_directory (tracker : EvaluationTracker) (weights : string) : string :=
  (model_name tracker ++ "-" ++ weights ++ "-applied")%string.

(** [for weights in [...]: try: shutil.rmtree(...) except OSError: pass] *)
Fixpoint remove_weights (tracker : EvaluationTracker) (kinds : list string)
    : Py.result unit * list action :=
  match kinds with
  | [] => (Ok tt, [])
  | weights :: rest =>
      let directory := weights_directory tracker weights in
      match rmtree directory with
      | RaisedOther e => (Raise e, [Rmtree directory])
      | Removed | RaisedOSError =>
          let (outcome, actions) := remove_weights tracker rest in
          (outcome, Rmtree directory :: actions)
      end
  end.

Definition evaluate (self : Ready) : Py.result Ready * list action :=
  match evaluate_engine (ready_model self) (ready_tasks self)
          (override_batch_size (ready_parameters self)) (ready_tracker self) with
  | Raise e => (Raise e, [LogArgsInfo; RunEvaluation])
  | Ok tracker =>
      let self' :=
        {| ready_parameters := ready_parameters self;
           ready_accelerator := ready_accelerator self;
           ready_parallel_context := ready_parallel_context self;
           ready_tracker := tracker;
           ready_model_config := ready_model_config self;
           ready_model := ready_model self;
           ready_tasks := ready_tasks self |} in
      let compiled :=
        if compiles_results self
        then [LogEndTime; AggregateMetrics 1000; AggregateDetails] else [] in
      match remove_weights tracker ["delta"; "adapter"]%string with
      | (Raise e, removals) =>
          (Raise e, [LogArgsInfo; RunEvaluation] ++ compiled ++ removals)
      | (Ok _, removals) =>
          (Ok self', [LogArgsInfo; RunEvaluation] ++ compiled ++ removals ++ [ModelCleanup])
      end
  end.

(** ** Properties of construction and evaluation *)

(** The constructor above is the guarded constructor of [Pipeline] with
    its remaining steps spelled out. *)
Lemma init_is_guarded_init (tasks : Tasks) (parameters : PipelineParameters)
    (tracker : EvaluationTracker) (given : option Model) (config : option ModelConfig) :
  __init__ tasks parameters tracker given config =
  Pipeline.__init__ model_truth model_config_truth
    (fun tasks parameters tracker given config =>
       contexts <- _init_parallelism_manager
                     {| pipeline_parameters := Some parameters;
                        self_launcher_type := Some (launcher_type parameters);
                        accelerator := None; parallel_context := None;
                        evaluation_tracker := None; model_config := None;
                        model := None |} ;;
       m <- _init_model
              {| pipeline_parameters := Some parameters;
                 self_launcher_type := Some (launcher_type parameters);
                 accelerator := Some (fst contexts);
                 parallel_context := Some (snd contexts);
                 evaluation_tracker := Some tracker; model_config := Some config;
                 model := None |} config given ;;
       finish
         {| pipeline_parameters := Some parameters;
            self_launcher_type := Some (launcher_type parameters);
            accelerator := Some (fst contexts);
            parallel_context := Some (snd contexts);
            evaluation_tracker := Some tracker; model_config := Some config;
            model := Some m |} tasks)
    tasks parameters tracker given config.
Proof. reflexivity. Qed.

(** X26: What [_init_parallelism_manager] returns never holds both an
    accelerator and a parallel context: an accelerator only for the
    ACCELERATE launcher, a parallel context only for NANOTRON, neither for
    TGI and NONE. *)
Theorem parallelism_manager_populates_at_most_one (self : Pipeline)
    (acc : option Accelerator) (context : option ParallelContext) :
  _init_parallelism_manager self = Ok (acc, context) ->
  (acc = None \/ context = None)
  /\ (acc <> None -> self_launcher_type self = Some ACCELERATE)
  /\ (context <> None -> self_launcher_type self = Some NANOTRON)
  /\ (self_launcher_type self = Some TGI \/ self_launcher_type self = Some NONE ->
      acc = None /\ context = None).
Proof.
  unfold _init_parallelism_manager.
  destruct (self_launcher_type self) as [[| | |] |]; cbn [attribute bind];
    try discriminate.
  - destruct (negb is_accelerate_available); [discriminate |].
    destruct (new_accelerator 3000) as [a |]; cbn [bind]; [| discriminate].
    destruct (test_all_gather_accelerator a); cbn [bind]; [| discriminate].
    intros H. injection H as <- <-.
    split; [now right |]. split; [reflexivity |].
    split; [intros Hc; now contradiction Hc |].
    intros [Hl | Hl]; discriminate.
  - destruct (negb is_nanotron_available); [discriminate |].
    destruct initialize_torch_distributed; cbn [bind]; [| discriminate].
    destruct (model_config self) as [[c |] |]; cbn [attribute bind]; try discriminate.
    destruct (parallelism c) as [[[tp pp] dp] |]; cbn [bind]; [| discriminate].
    destruct (new_parallel_context tp pp dp) as [pc |]; cbn [bind]; [| discriminate].
    destruct (test_all_gather_context pc); cbn [bind]; [| discriminate].
    intros H. injection H as <- <-.
    split; [now left |]. split; [intros Ha; now contradiction Ha |].
    split; [reflexivity |].
    intros [Hl | Hl]; discriminate.
  - intros H. injection H as <- <-.
    split; [now left |]. split; [intros Ha; now contradiction Ha |].
    split; [intros Hc; now contradiction Hc |]. now split.
  - intros H. injection H as <- <-.
    split; [now left |]. split; [intros Ha; now contradiction Ha |].
    split; [intros Hc; now contradiction Hc |]. now split.
Qed.

(** X27: With the NANOTRON launcher the constructor never returns a pipeline:
    [_init_parallelism_manager] reads [self.model_config] before the
    constructor has assigned it.  When the guard passes, nanotron is
    available and the distributed backend starts, what is raised is the
    [AttributeError] for the missing attribute. *)
Theorem nanotron_pipeline_is_never_constructed (tasks : Tasks)
    (parameters : PipelineParameters) (tracker : EvaluationTracker)
    (given : option Model) (config : option ModelConfig) :
  launcher_type parameters = NANOTRON ->
  raises (__init__ tasks parameters tracker given config)
  /\ (Pipeline.check_model model_truth model_config_truth given config = Ok tt ->
      is_nanotron_available = true ->
      initialize_torch_distributed = Ok tt ->
      __init__ tasks parameters tracker given config =
      Raise (AttributeError "'Pipeline' object has no attribute 'model_config'")).
Proof.
  intros Hlauncher. unfold __init__, _init_parallelism_manager.
  cbn [self_launcher_type attribute bind model_config]. rewrite Hlauncher.
  split.
  - destruct (Pipeline.check_model model_truth model_config_truth given config)
      as [[] | e]; cbn [bind]; [| now exists e].
    destruct (negb is_nanotron_available); cbn [bind]; [eexists; reflexivity |].
    destruct initialize_torch_distributed as [[] | e]; cbn [bind];
      eexists; reflexivity.
  - intros Hguard Havailable Hdist.
    rewrite Hguard, Havailable, Hdist. reflexivity.
Qed.

(** X28: When a model configuration is given, the model instance given with it
    plays no part: the constructor does the same whichever instance, or
    none, comes with a configuration that counts as true. *)
Theorem given_model_is_ignored_with_config (tasks : Tasks)
    (parameters : PipelineParameters) (tracker : EvaluationTracker)
    (given given' : option Model) (c : ModelConfig) :
  model_config_truth c = true ->
  __init__ tasks parameters tracker given (Some c) =
  __init__ tasks parameters tracker given' (Some c).
Proof.
  intros Hc. unfold __init__, Pipeline.check_model.
  cbn [Pipeline.truth]. rewrite Hc, !orb_true_r. reflexivity.
Qed.

(** X29: Teardown.  When the evaluation engine returns and no removal fails
    with anything but an [OSError], [evaluate] asks for the removal of the
    delta directory and then of the adapter directory, whether or not they
    exist, and calls [model.cleanup()] last, on every rank; the results are
    compiled (with 1000 bootstrap iterations) on the main process only.
    When the engine raises, nothing is compiled, removed or cleaned up; when
    a removal fails otherwise, its error is passed on and the model is not
    cleaned up. *)
Theorem evaluate_tears_down (self : Ready) :
  (forall tracker,
     evaluate_engine (ready_model self) (ready_tasks self)
       (override_batch_size (ready_parameters self)) (ready_tracker self) = Ok tracker ->
     (forall directory e, rmtree directory <> RaisedOther e) ->
     exists self',
       evaluate self =
       (Ok self',
        [LogArgsInfo; RunEvaluation]
          ++ (if compiles_results self
              then [LogEndTime; AggregateMetrics 1000; AggregateDetails] else [])
          ++ [Rmtree (weights_directory tracker "delta");
              Rmtree (weights_directory tracker "adapter"); ModelCleanup])
       /\ ready_tracker self' = tracker
       /\ ready_model self' = ready_model self)
  /\ (forall e,
        evaluate_engine (ready_model self) (ready_tasks self)
          (override_batch_size (ready_parameters self)) (ready_tracker self) = Raise e ->
        evaluate self = (Raise e, [LogArgsInfo; RunEvaluation]))
  /\ (forall tracker directory e,
        evaluate_engine (ready_model self) (ready_tasks self)
          (override_batch_size (ready_parameters self)) (ready_tracker self) = Ok tracker ->
        directory = weights_directory tracker "delta"
        \/ directory = weights_directory tracker "adapter" ->
        rmtree directory = RaisedOther e ->
        exists e' actions,
          evaluate self = (Raise e', actions) /\ ~ In ModelCleanup actions).
Proof.
  unfold evaluate. split; [| split].
  - intros tracker Hrun Hremovals. rewrite Hrun. cbn [remove_weights].
    eexists.
    destruct (rmtree (weights_directory tracker "delta")) eqn:Hdelta;
      [| | now contradiction (Hremovals _ _ Hdelta)];
      (destruct (rmtree (weights_directory tracker "adapter")) eqn:Hadapter;
       [| | now contradiction (Hremovals _ _ Hadapter)]);
      (split; [reflexivity | split; reflexivity]).
  - intros e Hrun. now rewrite Hrun.
  - intros tracker directory e Hrun Hdir Hfail. rewrite Hrun. cbn [remove_weights].
    assert (Hnot : forall l, ~ In ModelCleanup l ->
                     ~ In ModelCleanup
                         ([LogArgsInfo; RunEvaluation]
                            ++ (if compiles_results self
                                then [LogEndTime; AggregateMetrics 1000; AggregateDetails]
                                else []) ++ l)).
    { intros l Hl Hin. apply Hl.
      destruct (compiles_results self); cbn in Hin;
        repeat (destruct Hin as [Hin | Hin]; [discriminate |]); exact Hin. }
    destruct (rmtree (weights_directory tracker "delta")) as [| | e1] eqn:Hdelta.
    + destruct Hdir as [-> | ->]; [rewrite Hdelta in Hfail; discriminate |].
      rewrite Hfail. exists e. eexists. split; [reflexivity |]. apply Hnot.
      cbn. intros [H | [H | []]]; discriminate.
    + destruct Hdir as [-> | ->]; [rewrite Hdelta in Hfail; discriminate |].
      rewrite Hfail. exists e. eexists. split; [reflexivity |]. apply Hnot.
      cbn. intros [H | [H | []]]; discriminate.
    + exists e1. eexists. split; [reflexivity |]. apply Hnot.
      cbn. intros [H | []]; discriminate.
Qed.

End Run.

(** ** A single-process environment, for the closed statements *)

Definition toy_parameters (launcher : ParallelismManager) : PipelineParameters unit :=
  {| launcher_type := launcher; env_config := tt; job_id := 0;
     dataset_loading_processes := 1; nanotron_checkpoint_path := None;
     custom_tasks_directory := None; override_batch_size := None;
     num_fewshot_seeds := 1; max_samples := None; use_chat_template := false;
     system_prompt := None |}.

Definition counts_as_true (o : unit) : bool := true.

Definition toy_accelerator (timeout_seconds : Z) : Py.result unit := Ok tt.

Definition toy_gather (o : unit) : Py.result unit := Ok tt.

Definition toy_distributed : Py.result unit := Ok tt.

Definition toy_parallelism (config : unit) : Py.result (Z * Z * Z) := Ok (1, 1, 1)%Z.

Definition toy_context (tp pp dp : Z) : Py.result unit := Ok tt.

Definition toy_dirname (path : string) : string := path.

Definition toy_nanotron_model (path : string) (config accelerator : option unit)
    (env : unit) : Py.result unit :=
  Ok tt.

Definition toy_load_model (config env : unit) : Py.result unit := Ok tt.

Definition toy_finish (self : Pipeline unit unit unit unit unit unit) (tasks : unit)
    : Py.result (option (option unit)) :=
  Ok (model self).

Definition toy_pipeline (launcher : ParallelismManager)
    : Pipeline unit unit unit unit unit unit :=
  {| pipeline_parameters := Some (toy_parameters launcher);
     self_launcher_type := Some launcher;
     accelerator := None; parallel_context := None; evaluation_tracker := None;
     model_config := None; model := None |}.

Definition toy_engine (m tasks : unit) (override_bs : option Z) (tracker : unit)
    : Py.result unit :=
  Ok tt.

Definition toy_is_main (a : unit) : bool := true.

Definition toy_rank (c : unit) : Z := 0.

Definition toy_model_name (tracker : unit) : string := "gpt2".

Definition nothing_to_remove (directory : string) : removal := RaisedOSError.

Definition toy_ready : Ready unit unit unit unit unit unit unit :=
  {| ready_parameters := toy_parameters NONE; ready_accelerator := None;
     ready_parallel_context := None; ready_tracker := tt; ready_model_config := None;
     ready_model := tt; ready_tasks := tt |}.

Lemma parallelism_manager_populates_at_most_one_witness :
  self_launcher_type (toy_pipeline ACCELERATE) = Some ACCELERATE.
Proof.
  refine (proj1 (proj2 (@parallelism_manager_populates_at_most_one
                          unit unit unit unit unit unit true true
                          toy_accelerator toy_gather toy_distributed toy_parallelism
                          toy_context toy_gather (toy_pipeline ACCELERATE) (Some tt) None
                          eq_refl)) _).
  discriminate.
Defined.

Lemma nanotron_pipeline_is_never_constructed_witness :
  __init__ true true counts_as_true counts_as_true counts_as_true
    toy_accelerator toy_gather toy_distributed toy_parallelism toy_context toy_gather toy_dirname
    toy_nanotron_model toy_load_model toy_finish
    tt (toy_parameters NANOTRON) tt (Some tt) (Some tt) =
  Raise (AttributeError "'Pipeline' object has no attribute 'model_config'").
Proof.
  apply (proj2 (@nanotron_pipeline_is_never_constructed
                  unit unit unit unit unit unit unit (option (option unit)) true true
                  counts_as_true counts_as_true counts_as_true
                  toy_accelerator toy_gather toy_distributed toy_parallelism toy_context
                  toy_gather toy_dirname toy_nanotron_model toy_load_model toy_finish
                  tt (toy_parameters NANOTRON) tt (Some tt) (Some tt) eq_refl));
    reflexivity.
Defined.

Lemma given_model_is_ignored_with_config_witness :
  __init__ true true counts_as_true counts_as_true counts_as_true
    toy_accelerator toy_gather toy_distributed toy_parallelism toy_context toy_gather toy_dirname
    toy_nanotron_model toy_load_model toy_finish
    tt (toy_parameters ACCELERATE) tt (Some tt) (Some tt) =
  __init__ true true counts_as_true counts_as_true counts_as_true
    toy_accelerator toy_gather toy_distributed toy_parallelism toy_context toy_gather toy_dirname
    toy_nanotron_model toy_load_model toy_finish
    tt (toy_parameters ACCELERATE) tt None (Some tt).
Proof.
  apply (@given_model_is_ignored_with_config
           unit unit unit unit unit unit unit (option (option unit)) true true
           counts_as_true counts_as_true counts_as_true
           toy_accelerator toy_gather toy_distributed toy_parallelism toy_context
           toy_gather toy_dirname toy_nanotron_model toy_load_model toy_finish
           tt (toy_parameters ACCELERATE) tt (Some tt) None tt).
  reflexivity.
Defined.

Lemma evaluate_tears_down_witness :
  exists self',
    evaluate counts_as_true counts_as_true toy_engine toy_is_main toy_rank toy_model_name
      nothing_to_remove toy_ready =
    (Ok self',
     [LogArgsInfo; RunEvaluation; LogEndTime; AggregateMetrics 1000; AggregateDetails;
      Rmtree "gpt2-delta-applied"; Rmtree "gpt2-adapter-applied"; ModelCleanup]).
Proof.
  destruct (proj1 (@evaluate_tears_down unit unit unit unit unit unit
                     counts_as_true counts_as_true unit
                     toy_engine toy_is_main toy_rank toy_model_name nothing_to_remove
                     toy_ready) tt eq_refl)
    as (self' & Hrun & _).
  - intros directory e. discriminate.
  - exists self'. exact Hrun.
Defined.

End PipelineRun.

(* ================================================================== *)
(** * src/lighteval/config/lighteval_config.py: generation arguments *)
(* ================================================================== *)

Module Config.

Import Py.

Section Generation.

(** [SamplerType] is an enumeration of nanotron; [member name] is
    [SamplerType[name]], which has no value for a name that is not a
    member's.  [upper] is [str.upper], and [Float] holds the two fractions,
    which are only stored. *)
Variable SamplerType : Type.
Variable member : string -> option SamplerType.
Variable upper : string -> string.
Variable Float : Type.

(** The two kinds of value the field [sampler] can hold. *)
Inductive sampler_value : Type :=
| by_name (text : string)
| by_member (m : SamplerType).

Definition DEFAULT_GENERATION_SEED : Z := 42.

Record GenerationArgs : Type := {
  sampler : option sampler_value;
  temperature : option Float;
  top_k : option Z;
  top_p : option Float;
  n_samples : option Z;
  eos : option string;
  seed : option Z;
  use_cache : option bool
}.

Definition __post_init__ (self : GenerationArgs) : Py.result GenerationArgs :=
  resolved <- match sampler self with
              | Some (by_name text) =>
                  match member (upper text) with
                  | Some m => Ok (Some (by_member m))
                  | None => Raise KeyError
                  end
              | other => Ok other
              end ;;
  Ok {| sampler := resolved;
        temperature := temperature self;
        top_k := top_k self;
        top_p := top_p self;
        n_samples := n_samples self;
        eos := eos self;
        seed := match seed self with
                | None => Some DEFAULT_GENERATION_SEED
                | Some given => Some given
                end;
        use_cache := use_cache self |}.

(** X30: [__post_init__] settles the arguments in one pass: on what it returns
    it changes nothing more.  The result always has a seed, 42 when none was
    given and the given one otherwise (0 included).  A sampler given by
    name is replaced by the member that the upper case of the name names; a
    sampler given as a member, or none, stays as it is; so the result never
    holds a sampler by name.  Every other field is as it was.  It raises, a
    [KeyError], exactly when the sampler is a text whose upper case names
    no member. *)
Theorem post_init_settles_generation_args (self : GenerationArgs) :
  (forall self',
     __post_init__ self = Ok self' ->
     __post_init__ self' = Ok self'
     /\ seed self' = Some (match seed self with
                           | None => 42%Z
                           | Some given => given
                           end)
     /\ (forall text,
           sampler self = Some (by_name text) ->
           exists m,
             member (upper text) = Some m /\ sampler self' = Some (by_member m))
     /\ (forall m,
           sampler self = Some (by_member m) -> sampler self' = Some (by_member m))
     /\ (sampler self = None -> sampler self' = None)
     /\ (forall text, sampler self' <> Some (by_name text))
     /\ temperature self' = temperature self /\ top_k self' = top_k self
     /\ top_p self' = top_p self /\ n_samples self' = n_samples self
     /\ eos self' = eos self /\ use_cache self' = use_cache self)
  /\ (forall e,
        __post_init__ self = Raise e <->
        e = KeyError
        /\ exists text, sampler self = Some (by_name text) /\ member (upper text) = None).
Proof.
  unfold __post_init__. split.
  - intros self'.
    destruct (sampler self) as [[text | m] |] eqn:Hsampler;
      [destruct (member (upper text)) as [m |] eqn:Hmember | |];
      cbn [bind]; intros H; try discriminate; injection H as <-;
      cbn [sampler seed temperature top_k top_p n_samples eos use_cache bind];
      (split; [destruct (seed self); reflexivity |]);
      (split; [destruct (seed self); reflexivity |]);
      (split; [intros t Ht; try discriminate; injection Ht as <-;
               exists m; now split |]);
      (split; [intros m' Hm'; try discriminate; exact Hm' |]);
      (split; [intros Hnone; try discriminate; reflexivity |]);
      (split; [intros t Ht; discriminate |]);
      repeat split.
  - intros e.
    destruct (sampler self) as [[text | m] |] eqn:Hsampler;
      [destruct (member (upper text)) as [m |] eqn:Hmember | |]; cbn [bind]; split;
      try discriminate;
      try (intros (_ & t & Ht & Hm); congruence).
    + intros H. injection H as <-. split; [reflexivity |]. now exists text.
    + intros (-> & _). reflexivity.
Qed.

End Generation.

Definition toy_member (name : string) : option bool :=
  if (name =? "GREEDY")%string then Some true
  else if (name =? "TOP_K")%string then Some false
  else None.

Definition fixed_upper (text : string) : string :=
  if (text =? "greedy")%string then "GREEDY"
  else if (text =? "Greedy")%string then "GREEDY"
  else text.

Definition greedy_args : GenerationArgs bool unit :=
  {| sampler := Some (by_name bool "Greedy"); temperature := None; top_k := None;
     top_p := None; n_samples := None; eos := None; seed := None;
     use_cache := Some false |}.

Definition settled_args : GenerationArgs bool unit :=
  {| sampler := Some (by_member true); temperature := None; top_k := None;
     top_p := None; n_samples := None; eos := None; seed := Some 42%Z;
     use_cache := Some false |}.

Lemma post_init_settles_generation_args_witness :
  __post_init__ toy_member fixed_upper greedy_args = Ok settled_args
  /\ __post_init__ toy_member fixed_upper settled_args = Ok settled_args
  /\ exists m,
       toy_member (fixed_upper "Greedy") = Some m
       /\ sampler settled_args = Some (by_member m).
Proof.
  destruct (proj1 (post_init_settles_generation_args toy_member fixed_upper
                     greedy_args) settled_args eq_refl)
    as (Hsettled & _ & Hnamed & _).
  split; [reflexivity |]. split; [exact Hsettled |].
  exact (Hnamed "Greedy"%string eq_refl).
Defined.

End Config.
